(** * isp-agent: a shallow embedding of the agent runtime

    The Go sources embedded here are
      - [pkg/hwid]      (Generate, readFile, getMACAddress, Save, Load, GetOrCreate),
      - [pkg/license]   (Validate, IsExpired, LoadConfig, SaveConfig),
      - [pkg/telemetry] (Send, SendCachedSite, StartTelemetryLoop, sendTelemetry),
      - [pkg/updater]   (CheckForUpdates, DownloadAndInstall, StartUpdateLoop),
      - [pkg/nginx]     (what GetCacheStats, GetSystemStats and GetTopDomains
                         add to the figures they scrape),
      - the two [main] packages (the root one and [cmd/agent]).

    Go strings are byte strings: [string] with one [ascii] per byte.  Go's
    [int] and [int64] are [Z] with the 64-bit wrap-around written out where
    the code computes, [float64] is the kernel's binary64 [float].  Of the
    Go libraries, [strings.TrimSpace], the [%X] verb and [crypto/md5] are
    written out; [time.Parse] and the JSON decoders are parameters of the
    packages that call them.  The operating system, the network and the
    clock are an explicit [World] threaded through a state monad; every call
    that leaves the process is recorded in the world's log. *)

From Stdlib Require Import ZArith String Ascii List Bool Lia.
From Stdlib Require Import Floats.PrimFloat.
From stdpp Require Import gmap strings list.

Open Scope string_scope.
Open Scope Z_scope.

(** ** Go runtime helpers *)

Module Go.

(** [unicode.IsSpace] on the one-byte runes. *)
Definition isSpace1 (c : ascii) : bool :=
  let n := N_of_ascii c in
  ((9 <=? n) && (n <=? 13) || (n =? 32))%N.

(** The two-byte UTF-8 encodings of white space: U+0085 and U+00A0. *)
Definition isSpace2 (c1 c2 : ascii) : bool :=
  ((N_of_ascii c1 =? 194) &&
   ((N_of_ascii c2 =? 133) || (N_of_ascii c2 =? 160)))%N.

(** The three-byte UTF-8 encodings of white space: U+1680, U+2000..U+200A,
    U+2028, U+2029, U+202F, U+205F and U+3000. *)
Definition isSpace3 (c1 c2 c3 : ascii) : bool :=
  let a := N_of_ascii c1 in
  let b := N_of_ascii c2 in
  let c := N_of_ascii c3 in
  ((a =? 225) && (b =? 154) && (c =? 128)
   || (a =? 226) && (b =? 128)
      && ((128 <=? c) && (c <=? 138) || (c =? 168) || (c =? 169) || (c =? 175))
   || (a =? 226) && (b =? 129) && (c =? 159)
   || (a =? 227) && (b =? 128) && (c =? 128))%N.

(** [strings.TrimLeftFunc s unicode.IsSpace]: runes are decoded from the
    front; a byte that starts no white-space rune stops the scan. *)
Fixpoint trimLeft (s : string) : string :=
  match s with
  | EmptyString => s
  | String c1 s1 =>
      if isSpace1 c1 then trimLeft s1 else
      match s1 with
      | EmptyString => s
      | String c2 s2 =>
          if isSpace2 c1 c2 then trimLeft s2 else
          match s2 with
          | EmptyString => s
          | String c3 s3 => if isSpace3 c1 c2 c3 then trimLeft s3 else s
          end
      end
  end.

(** The same scan over the reversed string, for the right end: the bytes of
    a rune arrive last byte first. *)
Fixpoint trimLeftRev (s : string) : string :=
  match s with
  | EmptyString => s
  | String c1 s1 =>
      if isSpace1 c1 then trimLeftRev s1 else
      match s1 with
      | EmptyString => s
      | String c2 s2 =>
          if isSpace2 c2 c1 then trimLeftRev s2 else
          match s2 with
          | EmptyString => s
          | String c3 s3 => if isSpace3 c3 c2 c1 then trimLeftRev s3 else s
          end
      end
  end.

Fixpoint rev (s : string) : string :=
  match s with
  | EmptyString => EmptyString
  | String c s' => rev s' +:+ String c EmptyString
  end.

(** [strings.TrimSpace] (and [bytes.TrimSpace] on the same bytes). *)
Definition TrimSpace (s : string) : string :=
  rev (trimLeftRev (rev (trimLeft s))).

(** One upper-case hexadecimal digit, as [%X] prints it. *)
Definition hexDigit (n : N) : ascii :=
  if (n <? 10)%N then ascii_of_N (48 + n) else ascii_of_N (55 + n).

(** [fmt.Sprintf("%X", b)] for a byte array [b]: two digits a byte, no
    separator. *)
Fixpoint hexUpper (b : string) : string :=
  match b with
  | EmptyString => EmptyString
  | String c b' =>
      String (hexDigit (N_of_ascii c / 16))
        (String (hexDigit (N_of_ascii c mod 16)) (hexUpper b'))
  end.

(** A signed 64-bit result: the value modulo 2^64 in [-2^63, 2^63). *)
Definition wrap64 (z : Z) : Z :=
  (z + 2 ^ 63) mod 2 ^ 64 - 2 ^ 63.

(** Integer division of Go: it truncates toward zero, and the one overflow
    ([-2^63 / -1]) wraps. *)
Definition div64 (a b : Z) : Z := wrap64 (Z.quot a b).

(** A Go [error] value: what the runtime or the network reported, a
    [fmt.Errorf] that wraps another error with [%w], or one that stands
    alone. *)
Inductive error : Type :=
| Failure (what : string)
| Wrap (msg : string) (cause : error)
| Errorf (msg : string).

Inductive result (A : Type) : Type :=
| Ok (a : A)
| Err (e : error).
Arguments Ok {A} a.
Arguments Err {A} e.

Definition isOk {A} (r : result A) : bool :=
  match r with Ok _ => true | Err _ => false end.

(** [strings.HasPrefix]. *)
Fixpoint HasPrefix (s prefix : string) {struct prefix} : bool :=
  match prefix, s with
  | EmptyString, _ => true
  | String p prefix', String c s' => Ascii.eqb c p && HasPrefix s' prefix'
  | String _ _, EmptyString => false
  end.

(** [s[n:]] for [n] within the string. *)
Fixpoint dropBytes (n : nat) (s : string) : string :=
  match n, s with
  | S n', String _ s' => dropBytes n' s'
  | _, _ => s
  end.

(** [strings.TrimPrefix]. *)
Definition TrimPrefix (s prefix : string) : string :=
  if HasPrefix s prefix then dropBytes (String.length prefix) s else s.

(** [strings.Split(s, sep)] for a separator that is not empty (every call
    in the agent has one): the pieces between the occurrences of [sep], read
    from the left without overlap.  [cur] is the piece being read and [skip]
    the bytes of an occurrence still to pass. *)
Fixpoint splitFrom (sep : string) (skip : nat) (cur : string) (s : string)
    : list string :=
  match s with
  | EmptyString => [cur]
  | String c s' =>
      match skip with
      | S k => splitFrom sep k cur s'
      | O =>
          if HasPrefix s sep
          then cur :: splitFrom sep (String.length sep - 1) "" s'
          else splitFrom sep 0 (cur +:+ String c "") s'
      end
  end.

Definition Split (s sep : string) : list string := splitFrom sep 0 "" s.

End Go.
Import Go.

(** ** [crypto/md5] *)

Module md5.

Definition mask32 (x : Z) : Z := x mod 2 ^ 32.

Definition not32 (x : Z) : Z := Z.lxor x 4294967295.

Definition rotl (x s : Z) : Z :=
  mask32 (Z.lor (Z.shiftl x s) (Z.shiftr x (32 - s))).

(** The sine table and the per-round shift amounts of RFC 1321. *)
Definition K : list Z :=
  [ 3614090360; 3905402710; 606105819; 3250441966;
    4118548399; 1200080426; 2821735955; 4249261313;
    1770035416; 2336552879; 4294925233; 2304563134;
    1804603682; 4254626195; 2792965006; 1236535329;
    4129170786; 3225465664; 643717713; 3921069994;
    3593408605; 38016083; 3634488961; 3889429448;
    568446438; 3275163606; 4107603335; 1163531501;
    2850285829; 4243563512; 1735328473; 2368359562;
    4294588738; 2272392833; 1839030562; 4259657740;
    2763975236; 1272893353; 4139469664; 3200236656;
    681279174; 3936430074; 3572445317; 76029189;
    3654602809; 3873151461; 530742520; 3299628645;
    4096336452; 1126891415; 2878612391; 4237533241;
    1700485571; 2399980690; 4293915773; 2240044497;
    1873313359; 4264355552; 2734768916; 1309151649;
    4149444226; 3174756917; 718787259; 3951481745 ].

Definition shifts : list Z :=
  [ 7; 12; 17; 22; 7; 12; 17; 22; 7; 12; 17; 22; 7; 12; 17; 22;
    5; 9; 14; 20; 5; 9; 14; 20; 5; 9; 14; 20; 5; 9; 14; 20;
    4; 11; 16; 23; 4; 11; 16; 23; 4; 11; 16; 23; 4; 11; 16; 23;
    6; 10; 15; 21; 6; 10; 15; 21; 6; 10; 15; 21; 6; 10; 15; 21 ].

Definition bytesOf (s : string) : list Z :=
  map (fun c => Z.of_N (N_of_ascii c)) (list_ascii_of_string s).

Definition stringOf (bs : list Z) : string :=
  string_of_list_ascii (map (fun b => ascii_of_N (Z.to_N b)) bs).

(** The [n] low bytes of [x], least significant first. *)
Fixpoint littleEndian (n : nat) (x : Z) : list Z :=
  match n with
  | O => []
  | S n' => x mod 256 :: littleEndian n' (x / 256)
  end.

(** The message, a one bit, zeros up to 56 modulo 64 bytes, and the length
    in bits on eight bytes. *)
Definition pad (msg : list Z) : list Z :=
  let n := Z.of_nat (length msg) in
  msg ++ [128] ++ repeat 0 (Z.to_nat ((55 - n) mod 64))
      ++ littleEndian 8 ((8 * n) mod 2 ^ 64).

Fixpoint chunks (size count : nat) (bs : list Z) : list (list Z) :=
  match count with
  | O => []
  | S c => firstn size bs :: chunks size c (skipn size bs)
  end.

Definition word (bs : list Z) : Z :=
  fold_right (fun b acc => b + 256 * acc) 0 bs.

Definition words (block : list Z) : list Z :=
  map word (chunks 4 16 block).

Definition State : Type := Z * Z * Z * Z.

Definition init : State := (1732584193, 4023233417, 2562383102, 271733878).

Definition step (M : list Z) (st : State) (i : nat) : State :=
  let '(a, b, c, d) := st in
  let '(f, g) :=
    if (i <? 16)%nat then
      (Z.lor (Z.land b c) (Z.land (not32 b) d), i)
    else if (i <? 32)%nat then
      (Z.lor (Z.land d b) (Z.land (not32 d) c), ((5 * i + 1) mod 16)%nat)
    else if (i <? 48)%nat then
      (Z.lxor (Z.lxor b c) d, ((3 * i + 5) mod 16)%nat)
    else
      (Z.lxor c (Z.lor b (not32 d)), ((7 * i) mod 16)%nat) in
  let f' := mask32 (f + a + nth i K 0 + nth g M 0) in
  (d, mask32 (b + rotl f' (nth i shifts 0)), b, c).

Definition block (st : State) (bs : list Z) : State :=
  let '(a0, b0, c0, d0) := st in
  let '(a, b, c, d) := fold_left (step (words bs)) (seq 0 64) st in
  (mask32 (a0 + a), mask32 (b0 + b), mask32 (c0 + c), mask32 (d0 + d)).

Definition digest (st : State) : list Z :=
  let '(a, b, c, d) := st in
  littleEndian 4 a ++ littleEndian 4 b ++ littleEndian 4 c ++ littleEndian 4 d.

(** [md5.Sum]: the sixteen bytes of the digest. *)
Definition Sum (data : string) : string :=
  let padded := pad (bytesOf data) in
  stringOf (digest (fold_left block (chunks 64 (length padded / 64) padded) init)).

End md5.

(** ** Wire and domain records *)

(** [license.LicenseInfo]. *)
Record LicenseInfo := {
  li_LicenseKey : string;
  li_ISPID : Z;
  li_ExpiresAt : string;
  li_Modules : list string;
  li_Status : string
}.

(** [license.ValidateRequest]. *)
Record ValidateRequest := {
  vr_LicenseKey : string;
  vr_HWID : string
}.

(** [license.ValidateResponse]. *)
Record ValidateResponse := {
  vresp_Success : bool;
  vresp_Data : LicenseInfo;
  vresp_Error : string
}.

(** [telemetry.TelemetryData]. *)
Record TelemetryData := {
  ISPID : Z;
  CacheHits : Z;
  CacheMisses : Z;
  BandwidthSaved : Z;
  TotalRequests : Z;
  CacheSizeUsed : Z;
  CPUUsage : float;
  MemoryUsage : float
}.

(** [telemetry.SiteData]. *)
Record SiteData := {
  sd_ISPID : Z;
  sd_Domain : string;
  sd_Hits : Z;
  sd_BandwidthSaved : Z
}.

(** [telemetry.Response]; its [Data] field is never read. *)
Record Response := {
  resp_Success : bool;
  resp_Message : string;
  resp_Error : string
}.

(** [updater.VersionInfo]; [CreatedAt] is kept as the text on the wire. *)
Record VersionInfo := {
  vi_ID : Z;
  vi_Version : string;
  vi_DownloadURL : string;
  vi_Checksum : string;
  vi_ReleaseNotes : string;
  vi_IsStable : bool;
  vi_CreatedAt : string
}.

(** [updater.APIResponse]. *)
Record APIResponse := {
  api_Success : bool;
  api_Data : VersionInfo;
  api_Error : string
}.

(** [nginx.CacheStats] and [nginx.SystemStats]. *)
Record CacheStats := {
  cs_Hits : Z;
  cs_Misses : Z;
  cs_BytesServed : Z;
  cs_CacheSizeUsed : Z;
  cs_TotalRequests : Z
}.

Record SystemStats := {
  ss_CPUUsage : float;
  ss_MemoryUsage : float
}.

(** The zero values [&TelemetryData{}] and [&nginx.SystemStats{}]. *)
Definition zeroTelemetryData : TelemetryData :=
  {| ISPID := 0; CacheHits := 0; CacheMisses := 0; BandwidthSaved := 0;
     TotalRequests := 0; CacheSizeUsed := 0;
     CPUUsage := 0%float; MemoryUsage := 0%float |}.

Definition zeroSystemStats : SystemStats :=
  {| ss_CPUUsage := 0%float; ss_MemoryUsage := 0%float |}.

(** [data.ISPID = ispID] on the record behind the pointer. *)
Definition setISPID (ispID : Z) (d : TelemetryData) : TelemetryData :=
  {| ISPID := ispID; CacheHits := CacheHits d; CacheMisses := CacheMisses d;
     BandwidthSaved := BandwidthSaved d; TotalRequests := TotalRequests d;
     CacheSizeUsed := CacheSizeUsed d;
     CPUUsage := CPUUsage d; MemoryUsage := MemoryUsage d |}.

(** ** The world outside the process *)

(** The body of a POST: [json.Marshal] of one of the request records. *)
Inductive Body : Type :=
| BodyValidate (r : ValidateRequest)
| BodyTelemetry (d : TelemetryData)
| BodySite (d : SiteData).

(** The calls that leave the process. *)
Inductive Syscall : Type :=
| SysReadFile (path : string)
| SysWriteFile (path data : string)
| SysMkdirAll (path : string)
| SysHostname
| SysExecutable
| SysExec (cmd : string)
| SysCreate (path : string)
| SysCopy (path : string)
| SysChmod (path : string)
| SysRename (old new : string)
| SysHttpGet (url : string)
| SysHttpPost (url : string) (body : Body)
| SysSleep (nanoseconds : Z).

(** What the network answers to one request: no answer at all (the
    transport error of [http.Get] and [http.Post]), or a status code and the
    bytes of the body. *)
Inductive Reply : Type :=
| Unreachable
| Answer (status : Z) (body : string).

(** One entry of the log: the call and whether it succeeded. *)
Definition Event : Type := Syscall * bool.

(** What does not change while the process runs. *)
Record Host := {
  hostname : option string;            (* os.Hostname *)
  executable : option string;          (* os.Executable *)
  commands : string -> option string;  (* sh -c cmd: its output, or an error *)
  denied : Syscall -> bool;            (* calls the system refuses *)
  scrape : string -> CacheStats;       (* what the nginx logs and cache show *)
  usage : SystemStats;                 (* what top and free show *)
  topDomains : option (list (string * Z))
}.

Record World := {
  host : Host;
  files : gmap string string;          (* path to content *)
  network : list Reply;                (* the answers to come, in order *)
  clock : Z;                           (* time.Now, in nanoseconds *)
  log : list Event
}.

Definition withFiles (f : gmap string string) (w : World) : World :=
  {| host := host w; files := f; network := network w; clock := clock w;
     log := log w |}.

Definition withNetwork (n : list Reply) (w : World) : World :=
  {| host := host w; files := files w; network := n; clock := clock w;
     log := log w |}.

Definition record (c : Syscall) (ok : bool) (w : World) : World :=
  {| host := host w; files := files w; network := network w; clock := clock w;
     log := log w ++ [(c, ok)] |}.

(** Time passes: a duration that is not positive passes no time. *)
Definition advance (d : Z) (w : World) : World :=
  {| host := host w; files := files w; network := network w;
     clock := clock w + Z.max 0 d; log := log w |}.

(** The state monad over the world. *)
Definition IO (A : Type) : Type := World -> A * World.

Definition ret {A} (a : A) : IO A := fun w => (a, w).

Definition bind {A B} (m : IO A) (k : A -> IO B) : IO B :=
  fun w => let (a, w') := m w in k a w'.

Notation "'let*' x ':=' m 'in' k" := (bind m (fun x => k))
  (at level 10, x pattern, m at level 100, k at level 200).

(** [if err != nil { return ..., wrap(err) }]: the continuation runs on
    success only. *)
Definition try {A B} (m : IO (result A)) (wrap : error -> error)
    (k : A -> IO (result B)) : IO (result B) :=
  let* r := m in
  match r with
  | Ok a => k a
  | Err e => ret (Err (wrap e))
  end.

(** [for range ticker.C { body }], for the first [ticks] firings of the
    ticker. *)
Fixpoint forTicks (ticks : nat) (body : IO unit) : IO unit :=
  match ticks with
  | O => ret tt
  | S n => let* _ := body in forTicks n body
  end.

(** [for _, x := range xs { body(x) }]. *)
Fixpoint forEach {A} (xs : list A) (body : A -> IO unit) : IO unit :=
  match xs with
  | [] => ret tt
  | x :: rest => let* _ := body x in forEach rest body
  end.

(** [time.Second], [time.Minute] and [time.Hour], in nanoseconds. *)
Definition Second : Z := 1000000000.
Definition Minute : Z := 60 * Second.
Definition Hour : Z := 60 * Minute.

Module Sys.

(** A call that changes the files by [f]; it fails, changing nothing, when
    its subject is not [present] or the system refuses the call. *)
Definition mutate (c : Syscall) (present : bool) (f : gmap string string -> gmap string string)
    : IO (result unit) :=
  fun w =>
    if present && negb (denied (host w) c)
    then (Ok tt, record c true (withFiles (f (files w)) w))
    else (Err (Failure "operation failed"), record c false w).

(** [os.ReadFile]. *)
Definition ReadFile (path : string) : IO (result string) :=
  fun w =>
    match files w !! path with
    | Some data => (Ok data, record (SysReadFile path) true w)
    | None => (Err (Failure "no such file"), record (SysReadFile path) false w)
    end.

(** [os.WriteFile]: the file is created or replaced. *)
Definition WriteFile (path data : string) : IO (result unit) :=
  mutate (SysWriteFile path data) true (fun f => <[path := data]> f).

(** [os.MkdirAll]; directories are not part of [files]. *)
Definition MkdirAll (path : string) : IO (result unit) :=
  mutate (SysMkdirAll path) true (fun f => f).

(** [os.Create]: the file is created, or truncated when it exists. *)
Definition Create (path : string) : IO (result unit) :=
  mutate (SysCreate path) true (fun f => <[path := ""]> f).

(** [io.Copy(out, body)] into the file just created at [path].  What a
    failed copy has written by then is not modelled: the file stays as
    [Create] left it. *)
Definition Copy (path body : string) : IO (result unit) :=
  mutate (SysCopy path) true (fun f => <[path := body]> f).

(** [os.Chmod]; the mode bits are not part of [files]. *)
Definition Chmod (path : string) : IO (result unit) :=
  fun w => mutate (SysChmod path) (bool_decide (is_Some (files w !! path))) (fun f => f) w.

(** [os.Rename]: atomic; the new path is replaced, the old one is gone. *)
Definition Rename (old new : string) : IO (result unit) :=
  fun w =>
    match files w !! old with
    | Some data =>
        mutate (SysRename old new) true (fun f => <[new := data]> (delete old f)) w
    | None => mutate (SysRename old new) false (fun f => f) w
    end.

(** [os.Hostname]. *)
Definition Hostname : IO (result string) :=
  fun w =>
    match hostname (host w) with
    | Some h => (Ok h, record SysHostname true w)
    | None => (Err (Failure "hostname"), record SysHostname false w)
    end.

(** [os.Executable]. *)
Definition Executable : IO (result string) :=
  fun w =>
    match executable (host w) with
    | Some p => (Ok p, record SysExecutable true w)
    | None => (Err (Failure "executable"), record SysExecutable false w)
    end.

(** [exec.Command("sh", "-c", cmd).Output()]. *)
Definition Output (cmd : string) : IO (result string) :=
  fun w =>
    match commands (host w) cmd with
    | Some out => (Ok out, record (SysExec cmd) true w)
    | None => (Err (Failure "exec"), record (SysExec cmd) false w)
    end.

(** [exec.Command(...).Run()]. *)
Definition Run (cmd : string) : IO (result unit) :=
  try (Output cmd) (fun e => e) (fun _ => ret (Ok tt)).

(** One request: the next answer of the network is consumed. *)
Definition request (c : Syscall) : IO (result (Z * string)) :=
  fun w =>
    match network w with
    | Answer status body :: rest =>
        (Ok (status, body), record c true (withNetwork rest w))
    | Unreachable :: rest =>
        (Err (Failure "transport"), record c false (withNetwork rest w))
    | [] => (Err (Failure "transport"), record c false w)
    end.

(** [http.Get] and [http.Post]. *)
Definition Get (url : string) : IO (result (Z * string)) :=
  request (SysHttpGet url).

Definition Post (url : string) (body : Body) : IO (result (Z * string)) :=
  request (SysHttpPost url body).

(** [time.Sleep]. *)
Definition Sleep (d : Z) : IO unit :=
  fun w => (tt, record (SysSleep d) true (advance d w)).

(** [time.Now]. *)
Definition Now : IO Z := fun w => (clock w, w).

End Sys.

(** ** Package [hwid] *)

Module hwid.

Definition machineIdPath : string := "/etc/machine-id".
Definition dbusMachineIdPath : string := "/var/lib/dbus/machine-id".
Definition hwidPath : string := "/etc/isp-agent/hwid".
Definition ipLinkCommand : string :=
  "ip link show | grep 'link/ether' | head -1 | awk '{print $2}'".

Definition readFile (path : string) : IO (result string) :=
  try (Sys.ReadFile path) (fun e => e)
    (fun data => ret (Ok (TrimSpace data))).

Definition getMACAddress : IO (result string) :=
  try (Sys.Output ipLinkCommand) (fun e => e)
    (fun output =>
       let mac := TrimSpace output in
       if String.eqb mac "" then ret (Ok "00:00:00:00:00:00")
       else ret (Ok mac)).

(** The machine identifier of [Generate]: the first of the two files that
    can be read, else the host name (the empty string when that fails
    too). *)
Definition machineID : IO string :=
  let* r1 := readFile machineIdPath in
  match r1 with
  | Ok id => ret id
  | Err _ =>
      let* r2 := readFile dbusMachineIdPath in
      match r2 with
      | Ok id => ret id
      | Err _ =>
          let* h := Sys.Hostname in
          ret (match h with Ok name => name | Err _ => "" end)
      end
  end.

Definition Generate : IO (result string) :=
  let* id := machineID in
  let* r := getMACAddress in
  let mac := match r with Ok m => m | Err _ => "unknown" end in
  let combined := id +:+ "-" +:+ mac in
  let hash := md5.Sum combined in
  let hwid := "ISP-" +:+ hexUpper hash in
  ret (Ok hwid).

Definition Save (hwid : string) : IO (result unit) :=
  Sys.WriteFile hwidPath hwid.

Definition Load : IO (result string) :=
  try (Sys.ReadFile hwidPath) (fun e => e)
    (fun data => ret (Ok (TrimSpace data))).

(** Go returns the pair [(hwid, err)]; both can be set. *)
Definition GetOrCreate : IO (string * option error) :=
  let* l := Load in
  match l with
  | Ok (String c s) => ret (String c s, None)
  | _ =>
      let* g := Generate in
      match g with
      | Err e => ret ("", Some e)
      | Ok hwid =>
          let* _ := Sys.MkdirAll "/etc/isp-agent" in
          let* s := Save hwid in
          match s with
          | Err e => ret (hwid, Some e)
          | Ok _ => ret (hwid, None)
          end
      end
  end.

End hwid.

(** ** Package [license] *)

Module license.
Section WithCodecs.

(** [json.NewDecoder(body).Decode(&result)] for a [ValidateResponse]. *)
Variable decodeValidateResponse : string -> option ValidateResponse.

(** [time.Parse(time.RFC3339, s)]: the instant in nanoseconds. *)
Variable parseRFC3339 : string -> option Z.

Definition licenseKeyPath : string := "/etc/isp-agent/license.key".

Definition Validate (saasURL licenseKey hwid : string) : IO (result LicenseInfo) :=
  let url := saasURL +:+ "/api/licenses/validate" in
  let reqData := {| vr_LicenseKey := licenseKey; vr_HWID := hwid |} in
  try (Sys.Post url (BodyValidate reqData)) (Wrap "failed to connect to SaaS")
    (fun resp =>
       match decodeValidateResponse (snd resp) with
       | None => ret (Err (Wrap "failed to parse response" (Failure "json")))
       | Some result =>
           if negb (vresp_Success result)
           then ret (Err (Errorf ("license validation failed: " +:+ vresp_Error result)))
           else ret (Ok (vresp_Data result))
       end).

Definition IsExpired (expiresAt : string) : IO bool :=
  match parseRFC3339 expiresAt with
  | None => ret true
  | Some expiry =>
      let* t := Sys.Now in
      ret (expiry <? t)
  end.

Definition LoadConfig : IO (result string) :=
  try (Sys.ReadFile licenseKeyPath) (fun e => e)
    (fun data => ret (Ok (TrimSpace data))).

Definition SaveConfig (licenseKey : string) : IO (result unit) :=
  let* _ := Sys.MkdirAll "/etc/isp-agent" in
  Sys.WriteFile licenseKeyPath licenseKey.

End WithCodecs.
End license.

(** ** Package [nginx]: the stats provider

    The scraping itself (shell pipelines over the nginx logs) is the host's
    [scrape], [usage] and [topDomains]; what the Go code adds is kept. *)

Module nginx.

Definition defaultAccessLog : string := "/var/log/nginx/access.log".

(** Never fails; [TotalRequests] is the sum it computes. *)
Definition GetCacheStats (accessLogPath : string) : IO (result CacheStats) :=
  fun w =>
    let path := if String.eqb accessLogPath "" then defaultAccessLog else accessLogPath in
    let s := scrape (host w) path in
    (Ok {| cs_Hits := cs_Hits s; cs_Misses := cs_Misses s;
           cs_BytesServed := cs_BytesServed s;
           cs_CacheSizeUsed := cs_CacheSizeUsed s;
           cs_TotalRequests := wrap64 (cs_Hits s + cs_Misses s) |}, w).

(** Never fails. *)
Definition GetSystemStats : IO (result SystemStats) :=
  fun w => (Ok (usage (host w)), w).

(** The map is given as the list of its entries in the order [range]
    visits them. *)
Definition GetTopDomains (accessLogPath : string) (limit : Z)
    : IO (result (list (string * Z))) :=
  fun w =>
    match topDomains (host w) with
    | Some l => (Ok l, w)
    | None => (Err (Failure "exec"), w)
    end.

(** [extractDomain]; [len(parts) > 0] holds for every [Split]. *)
Definition extractDomain (url : string) : string :=
  let url := TrimPrefix url "http://" in
  let url := TrimPrefix url "https://" in
  let parts := Split url "/" in
  match parts with
  | part :: _ => part
  | [] => url
  end.

End nginx.

(** ** Package [telemetry] *)

Module telemetry.
Section WithCodecs.

(** [json.NewDecoder(body).Decode(&result)] for a [Response]. *)
Variable decodeResponse : string -> option Response.

(** [json.Marshal] refuses a float that is NaN or infinite. *)
Definition marshalable (data : TelemetryData) : bool :=
  is_finite (CPUUsage data) && is_finite (MemoryUsage data).

Definition zeroResponse : Response :=
  {| resp_Success := false; resp_Message := ""; resp_Error := "" |}.

Definition Send (saasURL : string) (data : TelemetryData) : IO (result unit) :=
  let url := saasURL +:+ "/api/telemetry" in
  if negb (marshalable data)
  then ret (Err (Wrap "failed to marshal data" (Failure "json: unsupported value")))
  else
    try (Sys.Post url (BodyTelemetry data)) (Wrap "failed to send telemetry")
      (fun resp =>
         let status := fst resp in
         if negb (status =? 201) && negb (status =? 200)
         then
           let result := default zeroResponse (decodeResponse (snd resp)) in
           ret (Err (Errorf ("server returned error: " +:+ resp_Error result)))
         else ret (Ok tt)).

Definition SendCachedSite (saasURL : string) (data : SiteData) : IO (result unit) :=
  let url := saasURL +:+ "/api/sites/report" in
  try (Sys.Post url (BodySite data)) (fun e => e) (fun _ => ret (Ok tt)).

Definition sendTelemetry (saasURL : string) (ispID : Z)
    (collectFunc : IO (result TelemetryData)) : IO unit :=
  let* c := collectFunc in
  let data := match c with Ok d => d | Err _ => zeroTelemetryData end in
  let data := setISPID ispID data in
  let* r := Send saasURL data in
  match r with
  | Ok _ => ret tt
  | Err _ =>
      let* _ := Sys.Sleep (5 * Second) in
      let* _ := Send saasURL data in
      ret tt
  end.

(** The loop never returns; [ticks] is how often the ticker fires while the
    process lives.  [time.NewTicker] panics on an interval that is not
    positive, before anything is sent. *)
Definition StartTelemetryLoop (saasURL : string) (ispID : Z) (interval : Z)
    (collectFunc : IO (result TelemetryData)) (ticks : nat) : IO (result unit) :=
  if interval <=? 0
  then ret (Err (Failure "non-positive interval for NewTicker"))
  else
    let* _ := sendTelemetry saasURL ispID collectFunc in
    let* _ := forTicks ticks (sendTelemetry saasURL ispID collectFunc) in
    ret (Ok tt).

End WithCodecs.
End telemetry.

(** ** Package [updater] *)

Module updater.
Section WithCodecs.

(** [json.NewDecoder(body).Decode(&apiResp)] for an [APIResponse]. *)
Variable decodeAPIResponse : string -> option APIResponse.

Definition CurrentVersion : string := "1.0.0".

Definition CheckForUpdates (saasURL : string) : IO (result (VersionInfo * bool)) :=
  let url := saasURL +:+ "/api/agent/version/latest" in
  try (Sys.Get url) (Wrap "failed to check for updates")
    (fun resp =>
       match decodeAPIResponse (snd resp) with
       | None => ret (Err (Wrap "failed to parse response" (Failure "json")))
       | Some apiResp =>
           if negb (api_Success apiResp)
           then ret (Err (Errorf ("API error: " +:+ api_Error apiResp)))
           else
             let needsUpdate :=
               negb (String.eqb (vi_Version (api_Data apiResp)) CurrentVersion) in
             ret (Ok (api_Data apiResp, needsUpdate))
       end).

Definition DownloadAndInstall (version : VersionInfo) : IO (result unit) :=
  try Sys.Executable (Wrap "failed to get executable path") (fun exePath =>
  let tempFile := exePath +:+ ".new" in
  try (Sys.Get (vi_DownloadURL version)) (Wrap "failed to download") (fun resp =>
  try (Sys.Create tempFile) (Wrap "failed to create temp file") (fun _ =>
  try (Sys.Copy tempFile (snd resp)) (Wrap "failed to write file") (fun _ =>
  try (Sys.Chmod tempFile) (Wrap "failed to set permissions") (fun _ =>
  let backupFile := exePath +:+ ".backup" in
  try (Sys.Rename exePath backupFile) (Wrap "failed to backup old version") (fun _ =>
  let* r := Sys.Rename tempFile exePath in
  match r with
  | Err e =>
      let* _ := Sys.Rename backupFile exePath in
      ret (Err (Wrap "failed to install new version" e))
  | Ok _ =>
      let* _ := Sys.Run "systemctl restart isp-agent" in
      ret (Ok tt)
  end)))))).

(** One firing of the ticker in [StartUpdateLoop]. *)
Definition updateTick (saasURL : string) : IO unit :=
  let* c := CheckForUpdates saasURL in
  match c with
  | Err _ => ret tt
  | Ok (version, needsUpdate) =>
      if needsUpdate
      then let* _ := DownloadAndInstall version in ret tt
      else ret tt
  end.

Definition StartUpdateLoop (saasURL : string) (interval : Z) (ticks : nat)
    : IO (result unit) :=
  if interval <=? 0
  then ret (Err (Failure "non-positive interval for NewTicker"))
  else
    let* _ := forTicks ticks (updateTick saasURL) in
    ret (Ok tt).

End WithCodecs.
End updater.

(** ** The two [main] packages *)

(** The goroutines the root [main] starts, each with the arguments of its
    [go] statement; the collector handed to the telemetry loop is the
    closure [collectStats], given by the [licenseInfo] it captures. *)
Inductive Task : Type :=
| StartupUpdateCheck
| UpdateLoop (saasURL : string) (interval : Z)
| TelemetryLoop (saasURL : string) (ispID : Z) (interval : Z)
    (licenseInfo : LicenseInfo).

(** How a run of [main] ends, or where it stays: the process exits with a
    code ([os.Exit], or the return from [main]), dies in [log.Fatal] (exit
    code 1) or in a panic (exit code 2), or blocks on the signal channel
    with its goroutines started. *)
Inductive Outcome : Type :=
| Exit (code : Z)
| Fatal (msg : string)
| Panic (msg : string)
| Serving (tasks : list Task).

Definition exitCode (o : Outcome) : option Z :=
  match o with
  | Exit c => Some c
  | Fatal _ => Some 1
  | Panic _ => Some 2
  | Serving _ => None
  end.

(** The root package (the build that ships the updater). *)
Module agent.
Section WithLibraries.

Variable decodeValidateResponse : string -> option ValidateResponse.
Variable decodeAPIResponse : string -> option APIResponse.
Variable decodeResponse : string -> option Response.

Definition VERSION : string := "1.0.0".
Definition SAAS_URL : string := "http://64.23.151.140:8080".

Record Flags := {
  installFlag : bool;
  hwidFlag : bool;
  versionFlag : bool;
  checkUpdateFlag : bool
}.

(** The closure [collectStats] of [main]. *)
Definition collectStats (licenseInfo : LicenseInfo) : IO (result TelemetryData) :=
  try (nginx.GetCacheStats "/var/log/nginx/access.log") (fun e => e) (fun cacheStats =>
  try nginx.GetSystemStats (fun e => e) (fun systemStats =>
  ret (Ok {| ISPID := li_ISPID licenseInfo;
             CacheHits := cs_Hits cacheStats;
             CacheMisses := cs_Misses cacheStats;
             BandwidthSaved := div64 (cs_BytesServed cacheStats) (1024 * 1024);
             TotalRequests := cs_TotalRequests cacheStats;
             CacheSizeUsed := div64 (cs_CacheSizeUsed cacheStats) (1024 * 1024);
             CPUUsage := ss_CPUUsage systemStats;
             MemoryUsage := ss_MemoryUsage systemStats |}))).

(** The goroutine that checks for an update once, thirty seconds after the
    start. *)
Definition startupUpdateCheck : IO unit :=
  let* _ := Sys.Sleep (30 * Second) in
  let* c := updater.CheckForUpdates decodeAPIResponse SAAS_URL in
  match c with
  | Err _ => ret tt
  | Ok (version, needsUpdate) =>
      if needsUpdate
      then let* _ := updater.DownloadAndInstall version in ret tt
      else ret tt
  end.

Definition main (flags : Flags) : IO Outcome :=
  if versionFlag flags then ret (Exit 0)
  else if hwidFlag flags then
    let* g := hwid.Generate in
    match g with
    | Err _ => ret (Fatal "Failed to generate hardware ID")
    | Ok _ => ret (Exit 0)
    end
  else if checkUpdateFlag flags then
    let* c := updater.CheckForUpdates decodeAPIResponse SAAS_URL in
    match c with
    | Err _ => ret (Fatal "Update check failed")
    | Ok _ => ret (Exit 0)
    end
  else
    let* k := license.LoadConfig in
    match k with
    | Err _ => ret (Fatal "Failed to load license config")
    | Ok licenseKey =>
        let* h := hwid.GetOrCreate in
        match h with
        | (_, Some _) => ret (Fatal "Failed to get hardware ID")
        | (hardwareID, None) =>
            if installFlag flags then
              let* v := license.Validate decodeValidateResponse SAAS_URL licenseKey hardwareID in
              match v with
              | Err _ => ret (Fatal "License validation failed")
              | Ok licenseInfo =>
                  if negb (String.eqb (li_Status licenseInfo) "active")
                  then ret (Fatal "License is not active")
                  else ret (Exit 0)
              end
            else
              let* v := license.Validate decodeValidateResponse SAAS_URL licenseKey hardwareID in
              match v with
              | Err _ => ret (Fatal "License validation failed")
              | Ok licenseInfo =>
                  if negb (String.eqb (li_Status licenseInfo) "active")
                  then ret (Fatal "License is not active")
                  else
                    ret (Serving
                           [ StartupUpdateCheck;
                             UpdateLoop SAAS_URL (24 * Hour);
                             TelemetryLoop licenseKey (li_ISPID licenseInfo)
                               (5 * Minute) licenseInfo ])
              end
        end
    end.

(** What a goroutine of [main] does while the process lives; [ticks] is how
    often its ticker fires.  A panic of a goroutine is [Err]. *)
Definition run (t : Task) (ticks : nat) : IO (result unit) :=
  match t with
  | StartupUpdateCheck => let* _ := startupUpdateCheck in ret (Ok tt)
  | UpdateLoop saasURL interval =>
      updater.StartUpdateLoop decodeAPIResponse saasURL interval ticks
  | TelemetryLoop saasURL ispID interval licenseInfo =>
      telemetry.StartTelemetryLoop decodeResponse saasURL ispID interval
        (collectStats licenseInfo) ticks
  end.

End WithLibraries.
End agent.

(** The package [cmd/agent] (the build without the updater). *)
Module cmd_agent.

(** [Config]; the package keeps one in the global [config], passed along
    here. *)
Record Config := {
  cfg_SaasURL : string;
  cfg_LicenseKey : string;
  cfg_ISPName : string;
  cfg_ServerIP : string;
  cfg_HWID : string;
  cfg_ISPID : Z;
  cfg_TelemetryInt : Z
}.

Definition setConfigISPID (ispID : Z) (c : Config) : Config :=
  {| cfg_SaasURL := cfg_SaasURL c; cfg_LicenseKey := cfg_LicenseKey c;
     cfg_ISPName := cfg_ISPName c; cfg_ServerIP := cfg_ServerIP c;
     cfg_HWID := cfg_HWID c; cfg_ISPID := ispID;
     cfg_TelemetryInt := cfg_TelemetryInt c |}.

Section WithLibraries.

Variable decodeValidateResponse : string -> option ValidateResponse.
Variable parseRFC3339 : string -> option Z.
Variable decodeResponse : string -> option Response.

(** [json.Unmarshal(data, &config)] into the zero [config]. *)
Variable decodeConfig : string -> option Config.

(** [installAgent], the interactive registration behind [-install]. *)
Variable installAgent : IO (result unit).

Definition Version : string := "1.0.0".

Definition loadConfig (path : string) : IO (result Config) :=
  try (Sys.ReadFile path) (fun e => e)
    (fun data =>
       match decodeConfig data with
       | Some c => ret (Ok c)
       | None => ret (Err (Failure "json"))
       end).

Definition collectAndSend (config : Config) : IO unit :=
  let* c := nginx.GetCacheStats "" in
  match c with
  | Err _ => ret tt
  | Ok cacheStats =>
      let* y := nginx.GetSystemStats in
      let sysStats := match y with Ok st => st | Err _ => zeroSystemStats end in
      let avgFileSize := 2 in
      let bandwidthSaved := wrap64 (cs_Hits cacheStats * avgFileSize) in
      let data :=
        {| ISPID := cfg_ISPID config;
           CacheHits := cs_Hits cacheStats;
           CacheMisses := cs_Misses cacheStats;
           BandwidthSaved := bandwidthSaved;
           TotalRequests := cs_TotalRequests cacheStats;
           CacheSizeUsed := cs_CacheSizeUsed cacheStats;
           CPUUsage := ss_CPUUsage sysStats;
           MemoryUsage := ss_MemoryUsage sysStats |} in
      let* r := telemetry.Send decodeResponse (cfg_SaasURL config) data in
      match r with
      | Err _ => ret tt
      | Ok _ =>
          let* d := nginx.GetTopDomains "" 20 in
          match d with
          | Err _ => ret tt
          | Ok domains =>
              forEach domains (fun entry =>
                let siteData :=
                  {| sd_ISPID := cfg_ISPID config;
                     sd_Domain := fst entry;
                     sd_Hits := snd entry;
                     sd_BandwidthSaved := wrap64 (snd entry * avgFileSize) |} in
                let* _ := telemetry.SendCachedSite (cfg_SaasURL config) siteData in
                ret tt)
          end
      end
  end.

(** The body of [collectAndSend] for any behaviour of the two provider
    calls it makes: [collectAndSend] is its instance at
    [nginx.GetCacheStats] and [nginx.GetSystemStats].  It shows the branches
    of [collectAndSend] for a provider that returns an error. *)
Definition collectAndSendWith
    (GetCacheStats : string -> IO (result CacheStats))
    (GetSystemStats : IO (result SystemStats)) (config : Config) : IO unit :=
  let* c := GetCacheStats "" in
  match c with
  | Err _ => ret tt
  | Ok cacheStats =>
      let* y := GetSystemStats in
      let sysStats := match y with Ok st => st | Err _ => zeroSystemStats end in
      let avgFileSize := 2 in
      let bandwidthSaved := wrap64 (cs_Hits cacheStats * avgFileSize) in
      let data :=
        {| ISPID := cfg_ISPID config;
           CacheHits := cs_Hits cacheStats;
           CacheMisses := cs_Misses cacheStats;
           BandwidthSaved := bandwidthSaved;
           TotalRequests := cs_TotalRequests cacheStats;
           CacheSizeUsed := cs_CacheSizeUsed cacheStats;
           CPUUsage := ss_CPUUsage sysStats;
           MemoryUsage := ss_MemoryUsage sysStats |} in
      let* r := telemetry.Send decodeResponse (cfg_SaasURL config) data in
      match r with
      | Err _ => ret tt
      | Ok _ =>
          let* d := nginx.GetTopDomains "" 20 in
          match d with
          | Err _ => ret tt
          | Ok domains =>
              forEach domains (fun entry =>
                let siteData :=
                  {| sd_ISPID := cfg_ISPID config;
                     sd_Domain := fst entry;
                     sd_Hits := snd entry;
                     sd_BandwidthSaved := wrap64 (snd entry * avgFileSize) |} in
                let* _ := telemetry.SendCachedSite (cfg_SaasURL config) siteData in
                ret tt)
          end
      end
  end.

(** [ticks] is how often the ticker fires before the signal arrives. *)
Definition main (install : bool) (configPath : string) (ticks : nat) : IO Outcome :=
  if install then
    let* i := installAgent in
    match i with
    | Err _ => ret (Fatal "Installation failed")
    | Ok _ => ret (Exit 0)
    end
  else
    let* l := loadConfig configPath in
    match l with
    | Err _ => ret (Fatal "Failed to load config")
    | Ok config =>
        let* v := license.Validate decodeValidateResponse
                    (cfg_SaasURL config) (cfg_LicenseKey config) (cfg_HWID config) in
        match v with
        | Err _ => ret (Fatal "License validation failed")
        | Ok licenseInfo =>
            let* expired := license.IsExpired parseRFC3339 (li_ExpiresAt licenseInfo) in
            if expired then ret (Fatal "License has expired")
            else
              let config := setConfigISPID (li_ISPID licenseInfo) config in
              if wrap64 (cfg_TelemetryInt config * Second) <=? 0
              then ret (Panic "non-positive interval for NewTicker")
              else
                let* _ := collectAndSend config in
                let* _ := forTicks ticks (collectAndSend config) in
                ret (Exit 0)
        end
    end.

End WithLibraries.
End cmd_agent.

(** ** Vocabulary of the statements *)

(** A byte below 128 that is no white space: it neither is nor ends nor
    starts a white-space rune. *)
Definition plain (c : ascii) : bool :=
  (N_of_ascii c <? 128)%N && negb (isSpace1 c).

Fixpoint allPlain (s : string) : bool :=
  match s with
  | EmptyString => true
  | String c s' => plain c && allPlain s'
  end.

(** The second input of the digest in [Generate]. *)
Definition macInput (w : World) : string :=
  match fst (hwid.getMACAddress w) with
  | Ok mac => mac
  | Err _ => "unknown"
  end.

(** Only the log differs. *)
Definition onlyLogged (w w' : World) : Prop :=
  host w' = host w /\ files w' = files w /\ network w' = network w.

(** The identity [Generate] derives in [w]. *)
Definition derived (w : World) : string :=
  "ISP-" +:+ hexUpper (md5.Sum (fst (hwid.machineID w) +:+ "-" +:+ macInput w)).

(** A cache that [GetOrCreate] uses: the file is there and something is
    left of it after trimming. *)
Definition cacheOf (w : World) : option string :=
  match files w !! hwid.hwidPath with
  | Some data => if String.eqb (TrimSpace data) "" then None else Some (TrimSpace data)
  | None => None
  end.

(** The error of the final rename. *)
Definition installFailed (e : error) : bool :=
  match e with
  | Wrap msg _ => String.eqb msg "failed to install new version"
  | _ => false
  end.

Section Logs.

Local Open Scope list_scope.

(** The request [Send] makes for a snapshot. *)
Definition telemetryPost (saasURL : string) (data : TelemetryData) : Syscall :=
  SysHttpPost (saasURL +:+ "/api/telemetry") (BodyTelemetry data).

(** What one call of [Send] adds to the log: its request, with whether the
    network answered; nothing when the snapshot cannot be marshalled. *)
Definition attempt (saasURL : string) (data : TelemetryData) (answered : bool)
    : list Event :=
  if telemetry.marshalable data then [(telemetryPost saasURL data, answered)] else [].

Definition isPost (ev : Event) : bool :=
  match fst ev with
  | SysHttpPost _ _ => true
  | _ => false
  end.

(** A collector that makes no request of its own. *)
Definition quiet (collectFunc : IO (result TelemetryData)) : Prop :=
  forall w, exists evs,
    log (snd (collectFunc w)) = log w ++ evs /\ List.filter isPost evs = [].

(** The snapshot [sendTelemetry] sends for what the collector returned. *)
Definition snapshot (ispID : Z) (c : result TelemetryData) : TelemetryData :=
  setISPID ispID (match c with Ok d => d | Err _ => zeroTelemetryData end).



(** The request of [CheckForUpdates]. *)
Definition versionGet (saasURL : string) : Syscall :=
  SysHttpGet (saasURL +:+ "/api/agent/version/latest").

(** An answer after which [CheckForUpdates] asks for no update: none at
    all, one that does not decode, one that reports a failure, or one that
    publishes the running version. *)
Definition settled (decode : string -> option APIResponse) (r : Reply) : bool :=
  match r with
  | Unreachable => true
  | Answer _ body =>
      match decode body with
      | None => true
      | Some apiResp =>
          negb (api_Success apiResp)
          || String.eqb (vi_Version (api_Data apiResp)) updater.CurrentVersion
      end
  end.

(** The request [collectAndSend] makes for one entry of the top domains. *)
Definition sitePost (saasURL : string) (ispID : Z) (entry : string * Z) : Syscall :=
  SysHttpPost (saasURL +:+ "/api/sites/report")
    (BodySite {| sd_ISPID := ispID; sd_Domain := fst entry; sd_Hits := snd entry;
                 sd_BandwidthSaved := wrap64 (snd entry * 2) |}).

(** The bytes of a string before its first slash. *)
Fixpoint untilSlash (s : string) : string :=
  match s with
  | EmptyString => EmptyString
  | String c s' => if Ascii.eqb c "/" then EmptyString else String c (untilSlash s')
  end.

(** A string without a slash. *)
Fixpoint noSlash (s : string) : bool :=
  match s with
  | EmptyString => true
  | String c s' => negb (Ascii.eqb c "/") && noSlash s'
  end.

End Logs.

(** ** Concrete hosts and worlds *)

Module Sample.

Definition newline : string := String "010"%char "".

Definition noStats : CacheStats :=
  {| cs_Hits := 0; cs_Misses := 0; cs_BytesServed := 0;
     cs_CacheSizeUsed := 0; cs_TotalRequests := 0 |}.

(** A host named host1, with no [ip] command and nothing refused. *)
Definition host1 : Host :=
  {| hostname := Some "host1";
     executable := Some "/opt/isp-agent/isp-agent";
     commands := fun _ => None;
     denied := fun _ => false;
     scrape := fun _ => noStats;
     usage := zeroSystemStats;
     topDomains := None |}.

(** The same host with an [ip] pipeline that prints nothing. *)
Definition host1NoInterface : Host :=
  {| hostname := Some "host1";
     executable := Some "/opt/isp-agent/isp-agent";
     commands := fun cmd => if String.eqb cmd hwid.ipLinkCommand then Some newline else None;
     denied := fun _ => false;
     scrape := fun _ => noStats;
     usage := zeroSystemStats;
     topDomains := None |}.

(** A world on 2026-10-30, with nothing logged yet. *)
Definition world (h : Host) (f : gmap string string) (n : list Reply) : World :=
  {| host := h; files := f; network := n; clock := 1793318400 * Second; log := [] |}.

(** No cached identity; one whose file ends in a line feed; one whose file
    holds a line feed only. *)
Definition fresh : World := world host1 ∅ [].

Definition cachedWithNewline : World :=
  world host1 {[ hwid.hwidPath := "ISP-0A1B" +:+ newline ]} [].

Definition cachedBlank : World :=
  world host1 {[ hwid.hwidPath := newline ]} [].

Definition noInterface : World := world host1NoInterface ∅ [].

(** The host after a first run has saved the identity it derived. *)
Definition afterFirstRun : World :=
  world host1 {[ hwid.hwidPath := "ISP-0CAE8F2C7EE9AB5FCEEA28C9F8A50A74" ]} [].

(** A parser that knows two instants: the start of the years 2000 and
    2999. *)
Definition parseKnown (s : string) : option Z :=
  if String.eqb s "2000-01-01T00:00:00Z" then Some (946684800 * Second)
  else if String.eqb s "2999-01-01T00:00:00Z" then Some (32472144000 * Second)
  else None.

(** A decoder that reads the whole body as the version of a successful
    answer. *)
Definition versionOnly (body : string) : option APIResponse :=
  Some {| api_Success := true;
          api_Data := {| vi_ID := 1; vi_Version := body;
                         vi_DownloadURL := "http://64.23.151.140:8080/static/isp-agent";
                         vi_Checksum := ""; vi_ReleaseNotes := "";
                         vi_IsStable := true; vi_CreatedAt := "" |};
          api_Error := "" |}.

(** The control plane publishes 0.9.9 while 1.0.0 runs. *)
Definition olderPublished : World := world host1 ∅ [Answer 200 "0.9.9"].

Definition release099 : VersionInfo :=
  {| vi_ID := 1; vi_Version := "0.9.9";
     vi_DownloadURL := "http://64.23.151.140:8080/static/isp-agent";
     vi_Checksum := ""; vi_ReleaseNotes := "";
     vi_IsStable := true; vi_CreatedAt := "" |}.

Definition exe : string := "/opt/isp-agent/isp-agent".

(** A host that refuses every rename onto the executable's path. *)
Definition hostTargetUnwritable : Host :=
  {| hostname := Some "host1";
     executable := Some exe;
     commands := fun _ => None;
     denied := fun c =>
       match c with
       | SysRename _ new => String.eqb new exe
       | _ => false
       end;
     scrape := fun _ => noStats;
     usage := zeroSystemStats;
     topDomains := None |}.

(** A host that refuses the rename of the download onto the executable's
    path, and nothing else. *)
Definition hostInstallRefused : Host :=
  {| hostname := Some "host1";
     executable := Some exe;
     commands := fun _ => None;
     denied := fun c =>
       match c with
       | SysRename old new => String.eqb old (exe +:+ ".new") && String.eqb new exe
       | _ => false
       end;
     scrape := fun _ => noStats;
     usage := zeroSystemStats;
     topDomains := None |}.

Definition targetUnwritable : World :=
  world hostTargetUnwritable {[ exe := "binary 1.0.0" ]} [Answer 200 "binary 0.9.9"].

Definition installRefused : World :=
  world hostInstallRefused {[ exe := "binary 1.0.0" ]} [Answer 200 "binary 0.9.9"].

(** A decoder of error bodies that finds nothing to decode. *)
Definition noBody (body : string) : option Response := None.

(** A collector that fails. *)
Definition failingCollector : IO (result TelemetryData) :=
  ret (Err (Failure "stats")).

(** A stats provider whose cache statistics cannot be had. *)
Definition failingProvider (accessLogPath : string) : IO (result CacheStats) :=
  ret (Err (Failure "stats")).

(** A network that drops the first request and answers the second. *)
Definition flaky : World := world host1 ∅ [Unreachable; Answer 200 ""].

(** A network that answers. *)
Definition healthy : World := world host1 ∅ [Answer 200 ""].

(** Three licenses the control plane may return for the key LK-123. *)
Definition licenseOf (status expiresAt : string) : LicenseInfo :=
  {| li_LicenseKey := "LK-123"; li_ISPID := 7; li_ExpiresAt := expiresAt;
     li_Modules := ["cache"]; li_Status := status |}.

Definition activeExpired : LicenseInfo := licenseOf "active" "2000-01-01T00:00:00Z".
Definition inactiveValid : LicenseInfo := licenseOf "inactive" "2999-01-01T00:00:00Z".
Definition activeValid : LicenseInfo := licenseOf "active" "2999-01-01T00:00:00Z".

(** A decoder that knows the three bodies that carry them. *)
Definition validateTable (body : string) : option ValidateResponse :=
  if String.eqb body "active, expired" then
    Some {| vresp_Success := true; vresp_Data := activeExpired; vresp_Error := "" |}
  else if String.eqb body "inactive, valid" then
    Some {| vresp_Success := true; vresp_Data := inactiveValid; vresp_Error := "" |}
  else if String.eqb body "active, valid" then
    Some {| vresp_Success := true; vresp_Data := activeValid; vresp_Error := "" |}
  else None.

(** The files of an installed agent. *)
Definition configPath : string := "/etc/isp-agent/config.json".

Definition installed : gmap string string :=
  {[ license.licenseKeyPath := "LK-123";
     hwid.hwidPath := "ISP-0CAE8F2C7EE9AB5FCEEA28C9F8A50A74";
     configPath := "{}" ]}.

Definition config : cmd_agent.Config :=
  {| cmd_agent.cfg_SaasURL := "http://64.23.151.140";
     cmd_agent.cfg_LicenseKey := "LK-123";
     cmd_agent.cfg_ISPName := "isp";
     cmd_agent.cfg_ServerIP := "10.0.0.1";
     cmd_agent.cfg_HWID := "ISP-0CAE8F2C7EE9AB5FCEEA28C9F8A50A74";
     cmd_agent.cfg_ISPID := 0;
     cmd_agent.cfg_TelemetryInt := 60 |}.

Definition configTable (data : string) : option cmd_agent.Config := Some config.

Definition installNothing : IO (result unit) := ret (Ok tt).

Definition noFlags : agent.Flags :=
  {| agent.installFlag := false; agent.hwidFlag := false;
     agent.versionFlag := false; agent.checkUpdateFlag := false |}.

(** The control plane answers the validation with a license that is
    expired, or inactive; after that it answers one more request. *)
Definition servedActiveExpired : World :=
  world host1 installed [Answer 200 "active, expired"; Answer 200 ""].

Definition servedInactiveValid : World :=
  world host1 installed [Answer 200 "inactive, valid"; Answer 200 ""].

(** The control plane answers the validation with a license that is
    active and valid; no other address answers. *)
Definition servedActiveValid : World :=
  world host1 installed [Answer 200 "active, valid"].

(** A collector whose CPU reading is not a number. *)
Definition nanCollector : IO (result TelemetryData) :=
  ret (Ok {| ISPID := 0; CacheHits := 10; CacheMisses := 5; BandwidthSaved := 1;
             TotalRequests := 15; CacheSizeUsed := 3;
             CPUUsage := nan; MemoryUsage := 0%float |}).

(** The control plane publishes the running version twice, with an outage
    in between. *)
Definition upToDate : World :=
  world host1 {[ exe := "binary 1.0.0" ]}
    [Answer 200 "1.0.0"; Unreachable; Answer 200 "1.0.0"].

(** The download request is answered with status 404. *)
Definition downloadNotFound : World :=
  world host1 {[ exe := "binary 1.0.0" ]} [Answer 404 "not found"].

Definition installOnly : agent.Flags :=
  {| agent.installFlag := true; agent.hwidFlag := false;
     agent.versionFlag := false; agent.checkUpdateFlag := false |}.

Definition hwidOnly : agent.Flags :=
  {| agent.installFlag := false; agent.hwidFlag := true;
     agent.versionFlag := false; agent.checkUpdateFlag := false |}.

Definition checkUpdateOnly : agent.Flags :=
  {| agent.installFlag := false; agent.hwidFlag := false;
     agent.versionFlag := false; agent.checkUpdateFlag := true |}.

(** A host that refuses every write of a file. *)
Definition hostReadOnly : Host :=
  {| hostname := Some "host1";
     executable := Some exe;
     commands := fun _ => None;
     denied := fun c => match c with SysWriteFile _ _ => true | _ => false end;
     scrape := fun _ => noStats;
     usage := zeroSystemStats;
     topDomains := None |}.

(** A read-only host with a license key and no cached identity. *)
Definition readOnlyLicensed : World :=
  world hostReadOnly {[ license.licenseKeyPath := "LK-123" ]} [Answer 200 "active, valid"].

(** A host whose logs show two cached domains. *)
Definition hostWithDomains : Host :=
  {| hostname := Some "host1";
     executable := Some exe;
     commands := fun _ => None;
     denied := fun _ => false;
     scrape := fun _ => noStats;
     usage := zeroSystemStats;
     topDomains := Some [("cdn.example.com", 12); ("static.example.org", 3)] |}.

(** The control plane accepts the snapshot and the first site report; then
    it is gone. *)
Definition reportingDomains : World :=
  world hostWithDomains ∅ [Answer 200 ""; Answer 200 ""].

End Sample.

(** * Properties *)

(** ** Strings *)

Section Strings.

Lemma plain_not_space c : plain c = true -> isSpace1 c = false.
Proof. unfold plain. destruct (isSpace1 c); rewrite ?andb_false_r; congruence. Qed.

Lemma plain_not_lead2 c c2 : plain c = true -> isSpace2 c c2 = false.
Proof.
  unfold plain, isSpace2. intros H. apply andb_true_iff in H as [H _].
  apply N.ltb_lt in H.
  destruct (N.eqb_spec (N_of_ascii c) 194); [lia | reflexivity].
Qed.

Lemma plain_not_lead3 c c2 c3 : plain c = true -> isSpace3 c c2 c3 = false.
Proof.
  unfold plain, isSpace3. intros H. apply andb_true_iff in H as [H _].
  apply N.ltb_lt in H. cbv zeta.
  destruct (N.eqb_spec (N_of_ascii c) 225); [lia |].
  destruct (N.eqb_spec (N_of_ascii c) 226); [lia |].
  destruct (N.eqb_spec (N_of_ascii c) 227); [lia | reflexivity].
Qed.

Lemma plain_not_trail2 c c1 : plain c = true -> isSpace2 c1 c = false.
Proof.
  unfold plain, isSpace2. intros H. apply andb_true_iff in H as [H _].
  apply N.ltb_lt in H.
  destruct (N.eqb_spec (N_of_ascii c) 133); [lia |].
  destruct (N.eqb_spec (N_of_ascii c) 160); [lia |].
  apply andb_false_r.
Qed.

Lemma plain_not_trail3 c c1 c2 : plain c = true -> isSpace3 c1 c2 c = false.
Proof.
  unfold plain, isSpace3. intros H. apply andb_true_iff in H as [H _].
  apply N.ltb_lt in H. cbv zeta.
  destruct (N.leb_spec 128 (N_of_ascii c)); [lia |].
  destruct (N.eqb_spec (N_of_ascii c) 128); [lia |].
  destruct (N.eqb_spec (N_of_ascii c) 159); [lia |].
  destruct (N.eqb_spec (N_of_ascii c) 168); [lia |].
  destruct (N.eqb_spec (N_of_ascii c) 169); [lia |].
  destruct (N.eqb_spec (N_of_ascii c) 175); [lia |].
  rewrite !andb_false_r. reflexivity.
Qed.

Lemma trimLeft_plain c s : plain c = true -> trimLeft (String c s) = String c s.
Proof.
  intros H. cbn [trimLeft]. rewrite (plain_not_space _ H).
  destruct s as [|c2 s]; [reflexivity |]. rewrite (plain_not_lead2 _ c2 H).
  destruct s as [|c3 s]; [reflexivity |]. now rewrite (plain_not_lead3 _ c2 c3 H).
Qed.

Lemma trimLeftRev_plain c s : plain c = true -> trimLeftRev (String c s) = String c s.
Proof.
  intros H. cbn [trimLeftRev]. rewrite (plain_not_space _ H).
  destruct s as [|c2 s]; [reflexivity |]. rewrite (plain_not_trail2 _ c2 H).
  destruct s as [|c3 s]; [reflexivity |]. now rewrite (plain_not_trail3 _ c3 c2 H).
Qed.

Lemma append_cons c (s t : string) : String c s +:+ t = String c (s +:+ t).
Proof. reflexivity. Qed.

Lemma append_empty_r (s : string) : s +:+ "" = s.
Proof.
  induction s as [|c s IH]; [reflexivity |].
  now rewrite append_cons, IH.
Qed.

Lemma append_assoc (s t u : string) : (s +:+ t) +:+ u = s +:+ (t +:+ u).
Proof.
  induction s as [|c s IH]; [reflexivity |].
  now rewrite !append_cons, IH.
Qed.

Lemma rev_append (s t : string) : rev (s +:+ t) = rev t +:+ rev s.
Proof.
  induction s as [|c s IH].
  - simpl. now rewrite append_empty_r.
  - rewrite append_cons. simpl. now rewrite IH, append_assoc.
Qed.

Lemma rev_involutive (s : string) : rev (rev s) = s.
Proof.
  induction s as [|c s IH]; simpl; [reflexivity |].
  now rewrite rev_append, IH.
Qed.

Lemma allPlain_append (s t : string) :
  allPlain (s +:+ t) = allPlain s && allPlain t.
Proof.
  induction s as [|c s IH]; [reflexivity |].
  rewrite append_cons. simpl. now rewrite IH, andb_assoc.
Qed.

Lemma allPlain_rev (s : string) : allPlain (rev s) = allPlain s.
Proof.
  induction s as [|c s IH]; simpl; [reflexivity |].
  rewrite allPlain_append, IH. simpl. rewrite andb_true_r. apply andb_comm.
Qed.

(** [TrimSpace] leaves a string of plain bytes as it is. *)
Lemma TrimSpace_allPlain (s : string) : allPlain s = true -> TrimSpace s = s.
Proof.
  intros H. unfold TrimSpace.
  assert (Hl : trimLeft s = s).
  { destruct s as [|c s]; [reflexivity |]. cbn in H.
    apply andb_true_iff in H as [H _]. now apply trimLeft_plain. }
  rewrite Hl.
  assert (Hr : trimLeftRev (rev s) = rev s).
  { pose proof (allPlain_rev s) as Hrev. rewrite H in Hrev.
    destruct (rev s) as [|c r]; [reflexivity |]. cbn in Hrev.
    apply andb_true_iff in Hrev as [Hc _]. now apply trimLeftRev_plain. }
  rewrite Hr. apply rev_involutive.
Qed.

Lemma hexDigit_plain (c : ascii) :
  plain (hexDigit (N_of_ascii c / 16)) = true /\
  plain (hexDigit (N_of_ascii c mod 16)) = true.
Proof. destruct c as [[] [] [] [] [] [] [] []]; vm_compute; split; reflexivity. Qed.

Lemma hexUpper_allPlain (b : string) : allPlain (hexUpper b) = true.
Proof.
  induction b as [|c b IH]; cbn [hexUpper allPlain]; [reflexivity |].
  destruct (hexDigit_plain c) as [-> ->]. exact IH.
Qed.

Lemma hexUpper_length (b : string) :
  String.length (hexUpper b) = (2 * String.length b)%nat.
Proof. induction b as [|c b IH]; cbn [hexUpper String.length]; lia. Qed.

Lemma append_length (s t : string) :
  String.length (s +:+ t) = (String.length s + String.length t)%nat.
Proof.
  induction s as [|c s IH]; [reflexivity |].
  rewrite append_cons. simpl. now rewrite IH.
Qed.

(** [md5.Sum] on the test suite of RFC 1321. *)
Example md5_test_suite :
  hexUpper (md5.Sum "") = "D41D8CD98F00B204E9800998ECF8427E" /\
  hexUpper (md5.Sum "a") = "0CC175B9C0F1B6A831C399E269772661" /\
  hexUpper (md5.Sum "abc") = "900150983CD24FB0D6963F7D28E17F72" /\
  hexUpper (md5.Sum "message digest") = "F96B697D7CB7938D525A2F31AAF161D0" /\
  hexUpper (md5.Sum "abcdefghijklmnopqrstuvwxyz") = "C3FCD3D76192E4007DFB496CCA67E13B" /\
  hexUpper (md5.Sum "ABCDEFGHIJKLMNOPQRSTUVWXYZabcdefghijklmnopqrstuvwxyz0123456789") =
    "D174AB98D277D9F5A5611C2C9F419D9F" /\
  hexUpper (md5.Sum
    "12345678901234567890123456789012345678901234567890123456789012345678901234567890") =
    "57EDF4A22BE3C955AC49DA2E2107B67A".
Proof. vm_compute. repeat split; reflexivity. Qed.

(** [TrimSpace] on ASCII and on multi-byte white space (U+00A0 in front,
    U+3000 behind). *)
Example TrimSpace_examples :
  TrimSpace (" " +:+ String "009"%char "ISP-0A" +:+ String "010"%char "") = "ISP-0A" /\
  TrimSpace (String "194"%char (String "160"%char "a b"
             +:+ String "227"%char (String "128"%char (String "128"%char "")))) = "a b" /\
  TrimSpace (String "010"%char "") = "".
Proof. vm_compute. repeat split; reflexivity. Qed.

End Strings.

(** ** Package [hwid] *)

Section Hwid.

Lemma onlyLogged_refl w : onlyLogged w w.
Proof. repeat split. Qed.

Lemma onlyLogged_trans w1 w2 w3 :
  onlyLogged w1 w2 -> onlyLogged w2 w3 -> onlyLogged w1 w3.
Proof. unfold onlyLogged. intros (-> & -> & ->) (-> & -> & ->). repeat split. Qed.

Lemma onlyLogged_record c ok w : onlyLogged w (record c ok w).
Proof. repeat split. Qed.

Lemma readFile_fst path w :
  fst (hwid.readFile path w) =
  match files w !! path with
  | Some data => Ok (TrimSpace data)
  | None => Err (Failure "no such file")
  end.
Proof.
  unfold hwid.readFile, try, bind, Sys.ReadFile, ret.
  destruct (files w !! path); reflexivity.
Qed.

Lemma readFile_logged path w : onlyLogged w (snd (hwid.readFile path w)).
Proof.
  unfold hwid.readFile, try, bind, Sys.ReadFile, ret.
  destruct (files w !! path); apply onlyLogged_record.
Qed.

Lemma readFile_same path w w' :
  onlyLogged w w' -> fst (hwid.readFile path w') = fst (hwid.readFile path w).
Proof. intros (_ & Hf & _). now rewrite !readFile_fst, Hf. Qed.

Lemma machineID_logged w : onlyLogged w (snd (hwid.machineID w)).
Proof.
  unfold hwid.machineID, bind.
  pose proof (readFile_logged hwid.machineIdPath w) as H1.
  destruct (hwid.readFile hwid.machineIdPath w) as [[id|e] w1]; cbn [snd] in *; [exact H1 |].
  pose proof (readFile_logged hwid.dbusMachineIdPath w1) as H2.
  destruct (hwid.readFile hwid.dbusMachineIdPath w1) as [[id|e'] w2]; cbn [snd] in *.
  - exact (onlyLogged_trans _ _ _ H1 H2).
  - unfold Sys.Hostname, ret.
    destruct (hostname (host w2)); cbn [snd];
      exact (onlyLogged_trans _ _ _ H1 (onlyLogged_trans _ _ _ H2 (onlyLogged_record _ _ _))).
Qed.

Lemma machineID_same w w' :
  onlyLogged w w' -> fst (hwid.machineID w') = fst (hwid.machineID w).
Proof.
  intros H. unfold hwid.machineID, bind.
  pose proof (readFile_same hwid.machineIdPath _ _ H) as E1.
  pose proof (readFile_logged hwid.machineIdPath w) as L1.
  pose proof (readFile_logged hwid.machineIdPath w') as L1'.
  destruct (hwid.readFile hwid.machineIdPath w) as [r1 w1].
  destruct (hwid.readFile hwid.machineIdPath w') as [r1' w1'].
  cbn [fst snd] in *. subst r1'. destruct r1 as [id|e]; [reflexivity |].
  assert (H1 : onlyLogged w1 w1').
  { destruct H as (Hh & Hf & Hn), L1 as (Lh & Lf & Ln), L1' as (Lh' & Lf' & Ln').
    repeat split; congruence. }
  pose proof (readFile_same hwid.dbusMachineIdPath _ _ H1) as E2.
  pose proof (readFile_logged hwid.dbusMachineIdPath w1) as L2.
  pose proof (readFile_logged hwid.dbusMachineIdPath w1') as L2'.
  destruct (hwid.readFile hwid.dbusMachineIdPath w1) as [r2 w2].
  destruct (hwid.readFile hwid.dbusMachineIdPath w1') as [r2' w2'].
  cbn [fst snd] in *. subst r2'. destruct r2 as [id|e']; [reflexivity |].
  assert (Hh : host w2' = host w2).
  { destruct H1 as (Hh & _), L2 as (Lh & _), L2' as (Lh' & _). congruence. }
  unfold Sys.Hostname, ret. rewrite Hh.
  destruct (hostname (host w2)); reflexivity.
Qed.

Lemma getMACAddress_fst w :
  fst (hwid.getMACAddress w) =
  match commands (host w) hwid.ipLinkCommand with
  | None => Err (Failure "exec")
  | Some output =>
      if String.eqb (TrimSpace output) "" then Ok "00:00:00:00:00:00"
      else Ok (TrimSpace output)
  end.
Proof.
  unfold hwid.getMACAddress, try, bind, Sys.Output, ret.
  destruct (commands (host w) hwid.ipLinkCommand) as [out|]; [|reflexivity].
  destruct (String.eqb (TrimSpace out) ""); reflexivity.
Qed.

Lemma getMACAddress_logged w : onlyLogged w (snd (hwid.getMACAddress w)).
Proof.
  unfold hwid.getMACAddress, try, bind, Sys.Output, ret.
  destruct (commands (host w) hwid.ipLinkCommand) as [out|]; [|apply onlyLogged_record].
  destruct (String.eqb (TrimSpace out) ""); apply onlyLogged_record.
Qed.

Lemma macInput_same w w' : onlyLogged w w' -> macInput w' = macInput w.
Proof. intros (Hh & _). unfold macInput. now rewrite !getMACAddress_fst, Hh. Qed.

(** What [Generate] returns: the tag and the digest of the two inputs. *)
Lemma Generate_fst w :
  fst (hwid.Generate w) =
  Ok ("ISP-" +:+ hexUpper (md5.Sum (fst (hwid.machineID w) +:+ "-" +:+ macInput w))).
Proof.
  unfold hwid.Generate, bind.
  pose proof (machineID_logged w) as L.
  destruct (hwid.machineID w) as [id w1]. cbn [fst snd] in *.
  rewrite <- (macInput_same _ _ L). unfold macInput.
  destruct (hwid.getMACAddress w1) as [[mac|e] w2]; reflexivity.
Qed.

Lemma Generate_logged w : onlyLogged w (snd (hwid.Generate w)).
Proof.
  unfold hwid.Generate, bind.
  pose proof (machineID_logged w) as L.
  destruct (hwid.machineID w) as [id w1]. cbn [snd] in L.
  pose proof (getMACAddress_logged w1) as L'.
  destruct (hwid.getMACAddress w1) as [r w2]. cbn [snd] in *.
  exact (onlyLogged_trans _ _ _ L L').
Qed.

Lemma md5_Sum_length (data : string) : String.length (md5.Sum data) = 16%nat.
Proof.
  unfold md5.Sum.
  destruct (fold_left md5.block _ md5.init) as [[[a b] c] d].
  reflexivity.
Qed.

(** An identity is the tag and thirty-two hexadecimal digits; trimming
    leaves it as it is, and it is not empty. *)
Lemma identity_length (x : string) :
  String.length ("ISP-" +:+ hexUpper (md5.Sum x)) = 36%nat.
Proof. rewrite append_length, hexUpper_length, md5_Sum_length. reflexivity. Qed.

Lemma identity_trimmed (b : string) :
  TrimSpace ("ISP-" +:+ hexUpper b) = "ISP-" +:+ hexUpper b.
Proof.
  apply TrimSpace_allPlain. rewrite allPlain_append, hexUpper_allPlain.
  reflexivity.
Qed.

Lemma derived_same w w' : onlyLogged w w' -> derived w' = derived w.
Proof.
  intros H. unfold derived. now rewrite (machineID_same _ _ H), (macInput_same _ _ H).
Qed.

Lemma derived_not_empty w : derived w <> "".
Proof. unfold derived. discriminate. Qed.

Lemma GetOrCreate_hit w id :
  cacheOf w = Some id ->
  hwid.GetOrCreate w = ((id, None), record (SysReadFile hwid.hwidPath) true w).
Proof.
  unfold cacheOf, hwid.GetOrCreate, hwid.Load, try, bind, Sys.ReadFile, ret.
  destruct (files w !! hwid.hwidPath) as [data|]; [|discriminate].
  destruct (TrimSpace data) as [|c t]; cbn [String.eqb]; [discriminate |].
  now intros [= <-].
Qed.

Lemma GetOrCreate_miss w :
  cacheOf w = None ->
  fst (fst (hwid.GetOrCreate w)) = derived w /\
  files (snd (hwid.GetOrCreate w)) !! hwid.hwidPath =
    (if denied (host w) (SysWriteFile hwid.hwidPath (derived w))
     then files w !! hwid.hwidPath
     else Some (derived w)).
Proof.
  intros Hc. unfold hwid.GetOrCreate, bind.
  assert (HL : onlyLogged w (snd (hwid.Load w)) /\
               match fst (hwid.Load w) with Ok (String _ _) => False | _ => True end).
  { revert Hc. unfold cacheOf, hwid.Load, try, bind, Sys.ReadFile, ret.
    destruct (files w !! hwid.hwidPath) as [data|]; cbn [fst snd].
    - destruct (TrimSpace data) as [|c t]; cbn [String.eqb]; [|discriminate].
      intros _. split; [apply onlyLogged_record | exact I].
    - intros _. split; [apply onlyLogged_record | exact I]. }
  destruct (hwid.Load w) as [l w1]. cbn [fst snd] in HL. destruct HL as [L1 Hl].
  assert (Hgen : forall w1, onlyLogged w w1 ->
    let r := (let (g, w2) := hwid.Generate w1 in
              match g with
              | Err e => ret ("", Some e)
              | Ok hwid0 =>
                  let* _ := Sys.MkdirAll "/etc/isp-agent" in
                  let* s := hwid.Save hwid0 in
                  match s with
                  | Err e => ret (hwid0, Some e)
                  | Ok _ => ret (hwid0, None)
                  end
              end w2) in
    fst (fst r) = derived w /\
    files (snd r) !! hwid.hwidPath =
      (if denied (host w) (SysWriteFile hwid.hwidPath (derived w))
       then files w !! hwid.hwidPath else Some (derived w))).
  { clear. intros w1 L1. cbv zeta.
    pose proof (Generate_fst w1) as G. pose proof (Generate_logged w1) as L2.
    rewrite <- (derived_same _ _ L1). fold (derived w1) in G.
    destruct (hwid.Generate w1) as [g w2]. cbn [fst snd] in G, L2. subst g.
    pose proof (onlyLogged_trans _ _ _ L1 L2) as (Hh & Hf & _).
    unfold bind, Sys.MkdirAll, hwid.Save, Sys.WriteFile, Sys.mutate, ret.
    cbn [andb].
    destruct (denied (host w2) (SysMkdirAll "/etc/isp-agent")) eqn:D1;
      cbn [negb host files record withFiles fst snd];
      rewrite Hh;
      destruct (denied (host w) (SysWriteFile hwid.hwidPath (derived w1))) eqn:D2;
      cbn [negb host files record withFiles fst snd];
      rewrite ?Hf, ?lookup_insert_eq; split; reflexivity. }
  destruct l as [[|c t]|e]; [apply Hgen; exact L1 | contradiction | apply Hgen; exact L1].
Qed.

End Hwid.

(** * The claims *)

(** ** Identity *)

(** C7. Identity derivation is deterministic.  Two runs that read the same
    host identifier and the same interface address derive the same
    identity: the tag ISP- followed by the thirty-two upper-case hexadecimal
    digits of the MD5 digest of the two inputs joined by a dash.  Hence
    [GetOrCreate] returns in a later run, whether it finds the file an
    earlier run without a cache has left or finds no cache at all, the
    string the earlier run returned. *)
Theorem identity_deterministic (w1 w2 : World) :
  fst (hwid.machineID w1) = fst (hwid.machineID w2) ->
  macInput w1 = macInput w2 ->
  fst (hwid.Generate w1) = fst (hwid.Generate w2) /\
  (exists id,
     fst (hwid.Generate w1) = Ok id /\
     id = "ISP-" +:+ hexUpper (md5.Sum (fst (hwid.machineID w1) +:+ "-" +:+ macInput w1)) /\
     String.length id = 36%nat) /\
  (cacheOf w1 = None ->
   cacheOf w2 = None \/
   files w2 !! hwid.hwidPath = files (snd (hwid.GetOrCreate w1)) !! hwid.hwidPath ->
   fst (fst (hwid.GetOrCreate w2)) = fst (fst (hwid.GetOrCreate w1))).
Proof.
  intros Hid Hmac.
  assert (Hd : derived w2 = derived w1) by (unfold derived; now rewrite Hid, Hmac).
  split; [| split].
  - rewrite !Generate_fst. fold (derived w1) (derived w2). now rewrite Hd.
  - exists (derived w1). rewrite Generate_fst. repeat split. apply identity_length.
  - intros Hc1 Hc2.
    destruct (GetOrCreate_miss w1 Hc1) as [R1 F1]. rewrite R1.
    assert (Hcases : cacheOf w2 = None \/ cacheOf w2 = Some (derived w1)).
    { destruct Hc2 as [Hc2 | Hc2]; [now left |].
      rewrite F1 in Hc2. unfold cacheOf in *. rewrite Hc2.
      destruct (denied (host w1) _); [now left | right].
      unfold derived. rewrite identity_trimmed. reflexivity. }
    destruct Hcases as [Hm | Hh].
    + destruct (GetOrCreate_miss w2 Hm) as [R2 _]. now rewrite R2.
    + now rewrite (GetOrCreate_hit w2 _ Hh).
Qed.

Lemma identity_deterministic_witness :
  fst (hwid.Generate Sample.fresh) = fst (hwid.Generate Sample.afterFirstRun) /\
  fst (fst (hwid.GetOrCreate Sample.afterFirstRun)) =
  fst (fst (hwid.GetOrCreate Sample.fresh)).
Proof.
  destruct (identity_deterministic Sample.fresh Sample.afterFirstRun) as (G & _ & C).
  - vm_compute. reflexivity.
  - vm_compute. reflexivity.
  - split; [exact G |]. apply C.
    + vm_compute. reflexivity.
    + right. vm_compute. reflexivity.
Defined.

(** C8, as the code has it.  Once the cached identity file exists and is
    not empty after its surrounding white space is trimmed, [GetOrCreate]
    returns the trimmed content with no error; all it does is read that one
    file (no derivation, no write), so a second call in sequence returns the
    same. *)
Theorem GetOrCreate_idempotent (w : World) (data : string) :
  files w !! hwid.hwidPath = Some data ->
  TrimSpace data <> "" ->
  hwid.GetOrCreate w =
    ((TrimSpace data, None), record (SysReadFile hwid.hwidPath) true w) /\
  fst (hwid.GetOrCreate (snd (hwid.GetOrCreate w))) = fst (hwid.GetOrCreate w).
Proof.
  intros Hf Hne.
  assert (Hc : cacheOf w = Some (TrimSpace data)).
  { unfold cacheOf. rewrite Hf.
    destruct (String.eqb_spec (TrimSpace data) ""); [contradiction | reflexivity]. }
  rewrite (GetOrCreate_hit w _ Hc). split; [reflexivity |].
  cbn [fst snd]. now rewrite (GetOrCreate_hit (record _ true w) _ Hc).
Qed.

Lemma GetOrCreate_idempotent_witness :
  hwid.GetOrCreate Sample.cachedWithNewline =
    (("ISP-0A1B", None),
     record (SysReadFile hwid.hwidPath) true Sample.cachedWithNewline) /\
  fst (hwid.GetOrCreate (snd (hwid.GetOrCreate Sample.cachedWithNewline))) =
  fst (hwid.GetOrCreate Sample.cachedWithNewline).
Proof.
  apply (GetOrCreate_idempotent Sample.cachedWithNewline ("ISP-0A1B" +:+ Sample.newline)).
  - vm_compute. reflexivity.
  - vm_compute. discriminate.
Defined.

(** C8 as stated fails.  A cache file that ends in a line feed is returned
    without the line feed, not unchanged; a cache file that holds a line
    feed only is not empty, and yet the identity is derived again and the
    file rewritten. *)
Lemma GetOrCreate_normalizes_cache :
  files Sample.cachedWithNewline !! hwid.hwidPath = Some ("ISP-0A1B" +:+ Sample.newline) /\
  fst (hwid.GetOrCreate Sample.cachedWithNewline) = ("ISP-0A1B", None) /\
  files Sample.cachedBlank !! hwid.hwidPath = Some Sample.newline /\
  fst (hwid.GetOrCreate Sample.cachedBlank) =
    ("ISP-0CAE8F2C7EE9AB5FCEEA28C9F8A50A74", None) /\
  files (snd (hwid.GetOrCreate Sample.cachedBlank)) !! hwid.hwidPath =
    Some "ISP-0CAE8F2C7EE9AB5FCEEA28C9F8A50A74".
Proof. vm_compute. repeat split; reflexivity. Qed.

(** C9, as the code has it.  When the [ip] pipeline runs and prints nothing
    but white space, the second input of the digest is the all-zero
    address; when the pipeline itself fails, it is the word unknown. *)
Theorem Generate_mac_fallback (w : World) :
  (forall output,
     commands (host w) hwid.ipLinkCommand = Some output ->
     TrimSpace output = "" ->
     macInput w = "00:00:00:00:00:00") /\
  (commands (host w) hwid.ipLinkCommand = None -> macInput w = "unknown") /\
  fst (hwid.Generate w) =
    Ok ("ISP-" +:+ hexUpper (md5.Sum (fst (hwid.machineID w) +:+ "-" +:+ macInput w))).
Proof.
  split; [| split].
  - intros output Hc Ht. unfold macInput. rewrite getMACAddress_fst, Hc, Ht. reflexivity.
  - intros Hc. unfold macInput. rewrite getMACAddress_fst, Hc. reflexivity.
  - apply Generate_fst.
Qed.

Lemma Generate_mac_fallback_witness :
  macInput Sample.noInterface = "00:00:00:00:00:00" /\
  macInput Sample.fresh = "unknown".
Proof.
  split.
  - destruct (Generate_mac_fallback Sample.noInterface) as (H & _ & _).
    apply (H Sample.newline); vm_compute; reflexivity.
  - destruct (Generate_mac_fallback Sample.fresh) as (_ & H & _).
    apply H. vm_compute. reflexivity.
Defined.

(** C9 as stated fails.  On a host whose [ip] pipeline cannot run, no
    address is discoverable, and the digest is taken over the host name and
    the word unknown, not over the all-zero address. *)
Lemma Generate_unknown_mac :
  fst (hwid.getMACAddress Sample.fresh) = Err (Failure "exec") /\
  fst (hwid.Generate Sample.fresh) =
    Ok ("ISP-" +:+ hexUpper (md5.Sum "host1-unknown")) /\
  hexUpper (md5.Sum "host1-unknown") = "0CAE8F2C7EE9AB5FCEEA28C9F8A50A74" /\
  hexUpper (md5.Sum "host1-00:00:00:00:00:00") = "8B1416AD84292FBC2A6D6CB093F2143D".
Proof. vm_compute. repeat split; reflexivity. Qed.

(** ** License *)

(** C10. [IsExpired] is fail-closed: an expiry that does not parse as
    RFC 3339 is expired; one that parses is expired exactly when its instant
    is before the current time.  The call changes nothing. *)
Theorem IsExpired_fail_closed
    (parseRFC3339 : string -> option Z) (expiresAt : string) (w : World) :
  (parseRFC3339 expiresAt = None ->
   license.IsExpired parseRFC3339 expiresAt w = (true, w)) /\
  (forall expiry,
     parseRFC3339 expiresAt = Some expiry ->
     snd (license.IsExpired parseRFC3339 expiresAt w) = w /\
     (fst (license.IsExpired parseRFC3339 expiresAt w) = true <->
      expiry < clock w)).
Proof.
  unfold license.IsExpired. split.
  - intros ->. reflexivity.
  - intros expiry ->. unfold bind, Sys.Now, ret. cbn [fst snd].
    split; [reflexivity | apply Z.ltb_lt].
Qed.

Lemma IsExpired_fail_closed_witness :
  license.IsExpired Sample.parseKnown "next year" Sample.fresh = (true, Sample.fresh) /\
  (fst (license.IsExpired Sample.parseKnown "2000-01-01T00:00:00Z" Sample.fresh) = true <->
   946684800 * Second < clock Sample.fresh) /\
  (fst (license.IsExpired Sample.parseKnown "2999-01-01T00:00:00Z" Sample.fresh) = true <->
   32472144000 * Second < clock Sample.fresh).
Proof.
  split; [| split].
  - apply (IsExpired_fail_closed Sample.parseKnown "next year" Sample.fresh).
    reflexivity.
  - apply (IsExpired_fail_closed Sample.parseKnown "2000-01-01T00:00:00Z" Sample.fresh).
    reflexivity.
  - apply (IsExpired_fail_closed Sample.parseKnown "2999-01-01T00:00:00Z" Sample.fresh).
    reflexivity.
Defined.

(** ** Updater *)

(** When the control plane answers and the answer decodes to a success,
    [CheckForUpdates] succeeds. *)
Lemma CheckForUpdates_answered decode saasURL w status body rest apiResp :
  network w = Answer status body :: rest ->
  decode body = Some apiResp ->
  api_Success apiResp = true ->
  fst (updater.CheckForUpdates decode saasURL w) =
    Ok (api_Data apiResp,
        negb (String.eqb (vi_Version (api_Data apiResp)) updater.CurrentVersion)).
Proof.
  intros Hn Hd Hs.
  unfold updater.CheckForUpdates, try, bind, Sys.Get, Sys.request, ret.
  rewrite Hn. cbn [snd fst]. rewrite Hd, Hs. reflexivity.
Qed.

(** C5. [CheckForUpdates] asks the control plane once, and it succeeds
    exactly when the control plane answers with a body that decodes to a
    response whose success flag is set.  It then returns the descriptor of
    that response, and [needsUpdate] is true exactly when the version string
    the control plane published differs from the running one, whatever the
    direction of the difference. *)
Theorem CheckForUpdates_needsUpdate
    (decode : string -> option APIResponse) (saasURL : string) (w : World)
    (version : VersionInfo) (needsUpdate : bool) :
  (fst (updater.CheckForUpdates decode saasURL w) = Ok (version, needsUpdate) <->
   exists status body rest apiResp,
     network w = Answer status body :: rest /\
     decode body = Some apiResp /\
     api_Success apiResp = true /\
     api_Data apiResp = version /\
     (needsUpdate = true <->
      vi_Version (api_Data apiResp) <> updater.CurrentVersion)) /\
  exists answered,
    log (snd (updater.CheckForUpdates decode saasURL w)) =
      (log w ++ [(versionGet saasURL, answered)])%list.
Proof.
  assert (D : forall v : string,
             negb (String.eqb v updater.CurrentVersion) = true <->
             v <> updater.CurrentVersion).
  { intros v. destruct (String.eqb_spec v updater.CurrentVersion) as [E|E];
      cbn [negb]; split; intros H; congruence. }
  unfold updater.CheckForUpdates, try, bind, Sys.Get, Sys.request, ret, versionGet.
  destruct (network w) as [|[|status body] rest]; cbn [fst snd].
  - split; [| now exists false].
    split; [discriminate | intros (? & ? & ? & ? & [=] & _)].
  - split; [| now exists false].
    split; [discriminate | intros (? & ? & ? & ? & [=] & _)].
  - destruct (decode body) as [apiResp|] eqn:Hd.
    + destruct (api_Success apiResp) eqn:Hs; cbn [negb fst snd].
      * split; [| now exists true]. split.
        -- intros [= <- <-]. exists status, body, rest, apiResp.
           repeat split; try assumption; apply D.
        -- intros (? & ? & ? & r & [= <- <- <-] & Hd' & _ & <- & Hn).
           rewrite Hd in Hd'. injection Hd' as <-. f_equal. f_equal.
           destruct needsUpdate.
           ++ apply D, Hn. reflexivity.
           ++ destruct (negb _) eqn:E; [| reflexivity].
              symmetry. apply Hn, D, E.
      * split; [| now exists true]. split; [discriminate |].
        intros (? & ? & ? & r & [= <- <- <-] & Hd' & Hs' & _).
        rewrite Hd in Hd'. injection Hd' as <-. congruence.
    + cbn [fst snd]. split; [| now exists true]. split; [discriminate |].
      intros (? & ? & ? & r & [= <- <- <-] & Hd' & _). congruence.
Qed.

Lemma CheckForUpdates_needsUpdate_witness :
  fst (updater.CheckForUpdates Sample.versionOnly agent.SAAS_URL Sample.olderPublished) =
    Ok (Sample.release099, true).
Proof.
  apply (proj1 (CheckForUpdates_needsUpdate Sample.versionOnly agent.SAAS_URL
                  Sample.olderPublished Sample.release099 true)).
  exists 200, "0.9.9"%string, [], {| api_Success := true; api_Data := Sample.release099;
                                     api_Error := "" |}.
  split; [reflexivity |]. split; [reflexivity |]. split; [reflexivity |].
  split; [reflexivity |]. split; [intros _ H; discriminate H | reflexivity].
Defined.

Section Install.

Lemma append_not_self (s t : string) : s +:+ t = s -> t = "".
Proof.
  induction s as [|c s IH]; [trivial |].
  rewrite append_cons. intros [= H]. auto.
Qed.

Lemma append_cancel (s t u : string) : s +:+ t = s +:+ u -> t = u.
Proof.
  induction s as [|c s IH]; [trivial |].
  rewrite !append_cons. intros [= H]. auto.
Qed.

Lemma temp_not_exe (p : string) : p +:+ ".new" <> p.
Proof. intros H. apply append_not_self in H. discriminate. Qed.

Lemma backup_not_exe (p : string) : p +:+ ".backup" <> p.
Proof. intros H. apply append_not_self in H. discriminate. Qed.

Lemma temp_not_backup (p : string) : p +:+ ".new" <> p +:+ ".backup".
Proof. intros H. apply append_cancel in H. discriminate. Qed.

Lemma mutate_cases c present f w :
  Sys.mutate c present f w = (Ok tt, record c true (withFiles (f (files w)) w)) /\
    present && negb (denied (host w) c) = true \/
  Sys.mutate c present f w = (Err (Failure "operation failed"), record c false w) /\
    present && negb (denied (host w) c) = false.
Proof.
  unfold Sys.mutate. destruct (present && negb (denied (host w) c)); auto.
Qed.

Ltac world_simpl :=
  cbn [fst snd network files host log clock record withFiles withNetwork
       andb negb] in *.

Ltac io_step :=
  world_simpl;
  match goal with
  | |- context [match network ?w with _ => _ end] =>
      destruct (network w) as [|[|? ?] ?]
  | |- context [match files ?w !! ?p with _ => _ end] =>
      let E := fresh "E" in destruct (files w !! p) eqn:E
  | |- context [match ?m !! ?p with _ => _ end] =>
      let E := fresh "E" in destruct (m !! p) eqn:E
  | |- context [Sys.mutate ?c ?p ?f ?w] =>
      let D := fresh "D" in
      destruct (mutate_cases c p f w) as [[-> D]|[-> D]]
  | |- context [match commands ?h ?c with _ => _ end] =>
      destruct (commands h c)
  end.

Lemma DownloadAndInstall_unresolved version w :
  executable (host w) = None ->
  updater.DownloadAndInstall version w =
    (Err (Wrap "failed to get executable path" (Failure "executable")),
     record SysExecutable false w).
Proof.
  intros H. unfold updater.DownloadAndInstall, try, bind, Sys.Executable.
  rewrite H. reflexivity.
Qed.

Lemma DownloadAndInstall_error version w exePath e w' :
  executable (host w) = Some exePath ->
  updater.DownloadAndInstall version w = (Err e, w') ->
  (installFailed e = false -> files w' !! exePath = files w !! exePath) /\
  (installFailed e = true ->
   denied (host w) (SysRename (exePath +:+ ".backup") exePath) = false ->
   files w' !! exePath = files w !! exePath).
Proof.
  intros Hexe.
  pose proof (temp_not_exe exePath) as N1.
  pose proof (backup_not_exe exePath) as N2.
  pose proof (temp_not_backup exePath) as N3.
  unfold updater.DownloadAndInstall, try, bind, Sys.Executable.
  rewrite Hexe.
  unfold Sys.Get, Sys.request, Sys.Create, Sys.Copy, Sys.Chmod, Sys.Rename,
    Sys.Run, Sys.Output, try, bind.
  unfold ret.
  repeat io_step.
  all: world_simpl; try discriminate.
  all: intros [= <- <-]; world_simpl.
  all: split; [intros H | intros H H0]; try (vm_compute in H; discriminate).
  all: try (simplify_map_eq; done).
  rewrite H0 in *. discriminate.
Qed.

(** A call that succeeds puts the download at the executable's path and
    keeps the old binary at the backup path. *)
Lemma DownloadAndInstall_success version w exePath w' :
  executable (host w) = Some exePath ->
  updater.DownloadAndInstall version w = (Ok tt, w') ->
  exists status body rest,
    network w = Answer status body :: rest /\
    files w' !! exePath = Some body /\
    files w' !! (exePath +:+ ".backup") = files w !! exePath.
Proof.
  intros Hexe.
  pose proof (temp_not_exe exePath) as N1.
  pose proof (backup_not_exe exePath) as N2.
  pose proof (temp_not_backup exePath) as N3.
  unfold updater.DownloadAndInstall, try, bind, Sys.Executable.
  rewrite Hexe.
  unfold Sys.Get, Sys.request, Sys.Create, Sys.Copy, Sys.Chmod, Sys.Rename,
    Sys.Run, Sys.Output, try, bind.
  unfold ret.
  repeat io_step.
  all: world_simpl; try discriminate.
  all: intros [= <-]; world_simpl.
  all: eexists _, _, _; split; [reflexivity |].
  all: simplify_map_eq; done.
Qed.

End Install.

(** C2, as the code has it.  A call that returns an error leaves the file at
    the executable's path as it was when a step up to and including the
    backup rename failed, and also when the final rename failed and the
    system does not refuse the rename of the backup back onto that path.
    When no path resolves, no file changes. *)
Theorem DownloadAndInstall_keeps_executable
    (version : VersionInfo) (w w' : World) (e : error) :
  updater.DownloadAndInstall version w = (Err e, w') ->
  (executable (host w) = None -> files w' = files w) /\
  (forall exePath,
     executable (host w) = Some exePath ->
     (installFailed e = false -> files w' !! exePath = files w !! exePath) /\
     (installFailed e = true ->
      denied (host w) (SysRename (exePath +:+ ".backup") exePath) = false ->
      files w' !! exePath = files w !! exePath)).
Proof.
  intros Hrun. split.
  - intros Hnone. rewrite (DownloadAndInstall_unresolved _ _ Hnone) in Hrun.
    now injection Hrun as _ <-.
  - intros exePath Hexe. exact (DownloadAndInstall_error _ _ _ _ _ Hexe Hrun).
Qed.

Lemma DownloadAndInstall_keeps_executable_witness :
  fst (updater.DownloadAndInstall Sample.release099 Sample.installRefused) =
    Err (Wrap "failed to install new version" (Failure "operation failed")) /\
  files (snd (updater.DownloadAndInstall Sample.release099 Sample.installRefused))
    !! Sample.exe = files Sample.installRefused !! Sample.exe.
Proof.
  split; [vm_compute; reflexivity |].
  destruct (DownloadAndInstall_keeps_executable Sample.release099 Sample.installRefused
              (snd (updater.DownloadAndInstall Sample.release099 Sample.installRefused))
              (Wrap "failed to install new version" (Failure "operation failed")))
    as [_ H].
  - vm_compute. reflexivity.
  - apply (H Sample.exe); [reflexivity | reflexivity | vm_compute; reflexivity].
Defined.

(** C2 as stated fails.  Where the system refuses every rename onto the
    executable's path, the final rename fails and so does the rename of the
    backup back: the call returns its error, the old binary sits at the
    backup path, and no file is left at the executable's path. *)
Lemma DownloadAndInstall_rollback_refused :
  fst (updater.DownloadAndInstall Sample.release099 Sample.targetUnwritable) =
    Err (Wrap "failed to install new version" (Failure "operation failed")) /\
  files Sample.targetUnwritable !! Sample.exe = Some "binary 1.0.0" /\
  files (snd (updater.DownloadAndInstall Sample.release099 Sample.targetUnwritable))
    !! Sample.exe = None /\
  files (snd (updater.DownloadAndInstall Sample.release099 Sample.targetUnwritable))
    !! (Sample.exe +:+ ".backup") = Some "binary 1.0.0".
Proof. vm_compute. repeat split; reflexivity. Qed.

(** ** Telemetry *)

Section Telemetry.

Local Open Scope list_scope.

Variable decodeResponse : string -> option Response.

Lemma Send_log saasURL data w :
  exists answered,
    log (snd (telemetry.Send decodeResponse saasURL data w)) =
      log w ++ attempt saasURL data answered /\
    files (snd (telemetry.Send decodeResponse saasURL data w)) = files w /\
    host (snd (telemetry.Send decodeResponse saasURL data w)) = host w /\
    (isOk (fst (telemetry.Send decodeResponse saasURL data w)) = true ->
     answered = true /\ telemetry.marshalable data = true).
Proof.
  unfold telemetry.Send, attempt, telemetryPost.
  destruct (telemetry.marshalable data); cbn [negb].
  - unfold try, bind, Sys.Post, Sys.request, ret.
    destruct (network w) as [|[|status body] rest]; cbn [fst snd].
    + exists false. repeat split; discriminate.
    + exists false. repeat split; discriminate.
    + exists true.
      destruct (negb (status =? 201) && negb (status =? 200)); repeat split.
  - exists false. unfold ret. cbn [fst snd]. rewrite app_nil_r.
    repeat split; discriminate.
Qed.

(** The log of one tick, from the moment the collector has returned. *)
Lemma sendTelemetry_log saasURL ispID collectFunc w :
  let w1 := snd (collectFunc w) in
  let data := snapshot ispID (fst (collectFunc w)) in
  let first := fst (telemetry.Send decodeResponse saasURL data w1) in
  let w' := snd (telemetry.sendTelemetry decodeResponse saasURL ispID collectFunc w) in
  files w' = files w1 /\ host w' = host w1 /\
  if isOk first
  then log w' = log w1 ++ [(telemetryPost saasURL data, true)]
  else exists answered1 answered2,
         log w' =
           log w1
           ++ attempt saasURL data answered1
           ++ [(SysSleep (5 * Second), true)]
           ++ attempt saasURL data answered2.
Proof.
  cbv zeta. unfold telemetry.sendTelemetry, bind, snapshot.
  destruct (collectFunc w) as [c w1]. cbn [fst snd].
  set (data := setISPID ispID match c with Ok d => d | Err _ => zeroTelemetryData end).
  destruct (Send_log saasURL data w1) as (a1 & L1 & F1 & H1 & O1).
  destruct (telemetry.Send decodeResponse saasURL data w1) as [[[]|e] w2];
    cbn [fst snd isOk] in *.
  - destruct (O1 eq_refl) as [-> M]. unfold attempt in L1. rewrite M in L1.
    unfold ret. cbn [snd]. repeat split; assumption.
  - unfold Sys.Sleep.
    set (w3 := record (SysSleep (5 * Second)) true (advance (5 * Second) w2)).
    destruct (Send_log saasURL data w3) as (a2 & L2 & F2 & H2 & _).
    destruct (telemetry.Send decodeResponse saasURL data w3) as [r3 w4].
    unfold ret. subst w3. cbn [fst snd files host log record advance] in *.
    repeat split; [congruence | congruence |].
    exists a1, a2. rewrite L2, L1, <- !app_assoc. reflexivity.
Qed.

Lemma attempt_posts saasURL data answered :
  (length (List.filter isPost (attempt saasURL data answered)) <= 1)%nat /\
  (forall ev, ev ∈ attempt saasURL data answered ->
     fst ev = telemetryPost saasURL data).
Proof.
  unfold attempt. destruct (telemetry.marshalable data); cbn.
  - split; [lia |]. intros ev Hin. apply list_elem_of_singleton in Hin. now subst.
  - split; [lia |]. intros ev Hin. inversion Hin.
Qed.

Lemma sleep_is_no_post d : List.filter isPost [(SysSleep d, true)] = [].
Proof. reflexivity. Qed.

(** One tick: what it adds to the log after the collector, in full. *)
Lemma sendTelemetry_tick saasURL ispID collectFunc w :
  let w1 := snd (collectFunc w) in
  let data := snapshot ispID (fst (collectFunc w)) in
  let first := fst (telemetry.Send decodeResponse saasURL data w1) in
  let w' := snd (telemetry.sendTelemetry decodeResponse saasURL ispID collectFunc w) in
  exists evs,
    log w' = log w1 ++ evs /\
    (isOk first = true -> evs = [(telemetryPost saasURL data, true)]) /\
    (isOk first = false ->
     exists answered1 answered2,
       evs = attempt saasURL data answered1
             ++ [(SysSleep (5 * Second), true)]
             ++ attempt saasURL data answered2) /\
    (length (List.filter isPost evs) <= 2)%nat /\
    (forall ev, ev ∈ List.filter isPost evs -> fst ev = telemetryPost saasURL data) /\
    files w' = files w1.
Proof.
  cbv zeta.
  pose proof (sendTelemetry_log saasURL ispID collectFunc w) as H.
  cbv zeta in H. destruct H as (Hf & _ & H).
  set (data := snapshot ispID (fst (collectFunc w))) in *.
  destruct (isOk (fst (telemetry.Send decodeResponse saasURL data (snd (collectFunc w))))).
  - exists [(telemetryPost saasURL data, true)].
    split; [exact H |]. split; [reflexivity |]. split; [discriminate |].
    change (List.filter isPost [(telemetryPost saasURL data, true)])
      with [(telemetryPost saasURL data, true)].
    split; [cbn [length]; lia | split; [| exact Hf]].
    intros ev Hin. apply list_elem_of_singleton in Hin. now subst.
  - destruct H as (a1 & a2 & H).
    destruct (attempt_posts saasURL data a1) as [N1 P1].
    destruct (attempt_posts saasURL data a2) as [N2 P2].
    eexists. split; [exact H |]. split; [discriminate |].
    split; [intros _; now exists a1, a2 |].
    rewrite !List.filter_app, sleep_is_no_post, app_nil_l.
    split; [| split; [| exact Hf]].
    + rewrite length_app. exact (Nat.add_le_mono _ _ _ _ N1 N2).
    + intros ev Hin.
      apply elem_of_app in Hin as [Hin | Hin];
        apply list_elem_of_In, List.filter_In in Hin as [Hin _];
        apply list_elem_of_In in Hin; auto.
Qed.

(** Across ticks nothing is caught up: a loop of quiet collections makes at
    most two requests per tick. *)
Lemma forTicks_posts (body : IO unit) (k : nat) :
  (forall w, exists evs,
     log (snd (body w)) = log w ++ evs /\
     (length (List.filter isPost evs) <= k)%nat) ->
  forall ticks w, exists evs,
    log (snd (forTicks ticks body w)) = log w ++ evs /\
    (length (List.filter isPost evs) <= ticks * k)%nat.
Proof.
  intros Hbody. induction ticks as [|n IH]; intros w.
  - exists []. cbn. rewrite app_nil_r. split; [reflexivity | lia].
  - cbn [forTicks]. unfold bind.
    destruct (Hbody w) as (e1 & L1 & N1).
    destruct (body w) as [[] w1]. cbn [snd] in L1.
    destruct (IH w1) as (e2 & L2 & N2).
    exists (e1 ++ e2). rewrite L2, L1, <- app_assoc. split; [reflexivity |].
    rewrite List.filter_app, length_app. cbn [Nat.mul].
    exact (Nat.add_le_mono _ _ _ _ N1 N2).
Qed.

Lemma sendTelemetry_posts saasURL ispID collectFunc :
  quiet collectFunc ->
  forall w, exists evs,
    log (snd (telemetry.sendTelemetry decodeResponse saasURL ispID collectFunc w)) =
      log w ++ evs /\
    (length (List.filter isPost evs) <= 2)%nat.
Proof.
  intros Hq w. destruct (Hq w) as (e0 & L0 & N0).
  pose proof (sendTelemetry_tick saasURL ispID collectFunc w) as H.
  cbv zeta in H. destruct H as (evs & L & _ & _ & N & _).
  exists (e0 ++ evs). rewrite L, L0, <- app_assoc. split; [reflexivity |].
  rewrite List.filter_app, N0. exact N.
Qed.

Lemma StartTelemetryLoop_posts saasURL ispID interval collectFunc ticks w :
  quiet collectFunc ->
  exists evs,
    log (snd (telemetry.StartTelemetryLoop decodeResponse saasURL ispID interval
                collectFunc ticks w)) = log w ++ evs /\
    (length (List.filter isPost evs) <= 2 * (ticks + 1))%nat.
Proof.
  intros Hq. unfold telemetry.StartTelemetryLoop.
  destruct (interval <=? 0).
  - exists []. unfold ret. cbn. rewrite app_nil_r. split; [reflexivity | lia].
  - unfold bind.
    destruct (sendTelemetry_posts saasURL ispID collectFunc Hq w) as (e1 & L1 & N1).
    destruct (telemetry.sendTelemetry decodeResponse saasURL ispID collectFunc w)
      as [[] w1]. cbn [snd] in L1.
    destruct (forTicks_posts _ 2 (sendTelemetry_posts saasURL ispID collectFunc Hq)
                ticks w1) as (e2 & L2 & N2).
    destruct (forTicks ticks _ w1) as [[] w2]. unfold ret. cbn [snd] in *.
    exists (e1 ++ e2). rewrite L2, L1, <- app_assoc. split; [reflexivity |].
    rewrite List.filter_app, length_app.
    pose proof (Nat.add_le_mono _ _ _ _ N1 N2) as N. lia.
Qed.

(** The collector of the root [main] is quiet. *)
Lemma collectStats_quiet licenseInfo : quiet (agent.collectStats licenseInfo).
Proof.
  intros w. exists []. rewrite app_nil_r. split; reflexivity.
Qed.

End Telemetry.

(** ** Telemetry reporter *)

Section TelemetryClaims.

Local Open Scope list_scope.

(** C6. In one tick [sendTelemetry] retries a failed send once, after a
    sleep of five seconds, and then gives up: when the first [Send] fails,
    the log gains the first request, the sleep and the second request, and
    nothing more.  A tick makes at most two requests, each carries the
    snapshot of this tick, and the tick leaves no file behind: a later
    tick starts from its own collection. *)
Theorem sendTelemetry_retries_once
    (decodeResponse : string -> option Response) (saasURL : string) (ispID : Z)
    (collectFunc : IO (result TelemetryData)) (w : World) :
  let w1 := snd (collectFunc w) in
  let data := snapshot ispID (fst (collectFunc w)) in
  let first := fst (telemetry.Send decodeResponse saasURL data w1) in
  let w' := snd (telemetry.sendTelemetry decodeResponse saasURL ispID collectFunc w) in
  exists evs,
    log w' = log w1 ++ evs /\
    (isOk first = false ->
     exists answered1 answered2,
       evs = attempt saasURL data answered1
             ++ [(SysSleep (5 * Second), true)]
             ++ attempt saasURL data answered2) /\
    (length (List.filter isPost evs) <= 2)%nat /\
    (forall ev, ev ∈ List.filter isPost evs -> fst ev = telemetryPost saasURL data) /\
    files w' = files w1.
Proof.
  cbv zeta.
  pose proof (sendTelemetry_tick decodeResponse saasURL ispID collectFunc w) as H.
  cbv zeta in H. destruct H as (evs & L & _ & R & N & P & F).
  exists evs. auto.
Qed.

Lemma sendTelemetry_retries_once_witness :
  exists evs,
    log (snd (telemetry.sendTelemetry Sample.noBody agent.SAAS_URL 7
                Sample.failingCollector Sample.flaky)) =
      log (snd (Sample.failingCollector Sample.flaky)) ++ evs /\
    exists answered1 answered2,
      evs = attempt agent.SAAS_URL (snapshot 7 (fst (Sample.failingCollector Sample.flaky)))
              answered1
            ++ [(SysSleep (5 * Second), true)]
            ++ attempt agent.SAAS_URL
                 (snapshot 7 (fst (Sample.failingCollector Sample.flaky))) answered2.
Proof.
  destruct (sendTelemetry_retries_once Sample.noBody agent.SAAS_URL 7
              Sample.failingCollector Sample.flaky) as (evs & L & R & _).
  exists evs. split; [exact L |]. apply R. vm_compute. reflexivity.
Defined.

(** C3, as the code has it.  On a tick whose collector returns an error,
    [sendTelemetry] still sends: the snapshot has every measurement at zero
    and the tenant id of the loop as its [ISPID].  When the first send of
    that snapshot succeeds it is the only request of the tick; when it
    fails, the five-second sleep and exactly one more send follow.
    [cmd/agent]'s [collectAndSend] does otherwise: where its call of
    [GetCacheStats] returns an error it returns at once and sends nothing.
    With the provider of package [nginx], which [collectAndSend] calls,
    that call returns no error. *)
Theorem sendTelemetry_collect_failure
    (decodeResponse : string -> option Response) (saasURL : string) (ispID : Z)
    (collectFunc : IO (result TelemetryData)) (w : World) (e : error)
    (GetCacheStats : string -> IO (result CacheStats))
    (GetSystemStats : IO (result SystemStats)) (config : cmd_agent.Config)
    (e' : error) :
  fst (collectFunc w) = Err e ->
  fst (GetCacheStats "" w) = Err e' ->
  let w1 := snd (collectFunc w) in
  let data :=
    {| ISPID := ispID; CacheHits := 0; CacheMisses := 0; BandwidthSaved := 0;
       TotalRequests := 0; CacheSizeUsed := 0;
       CPUUsage := 0%float; MemoryUsage := 0%float |} in
  let first := fst (telemetry.Send decodeResponse saasURL data w1) in
  let w' := snd (telemetry.sendTelemetry decodeResponse saasURL ispID collectFunc w) in
  (if isOk first
   then log w' = log w1 ++ [(telemetryPost saasURL data, true)]
   else exists answered1 answered2,
          log w' =
            log w1 ++
            [ (telemetryPost saasURL data, answered1);
              (SysSleep (5 * Second), true);
              (telemetryPost saasURL data, answered2) ]) /\
  cmd_agent.collectAndSendWith decodeResponse GetCacheStats GetSystemStats config w =
    (tt, snd (GetCacheStats "" w)) /\
  cmd_agent.collectAndSend decodeResponse config =
    cmd_agent.collectAndSendWith decodeResponse nginx.GetCacheStats
      nginx.GetSystemStats config /\
  isOk (fst (nginx.GetCacheStats "" w)) = true.
Proof.
  intros He Hc. cbv zeta. split; [| split; [| split; reflexivity]].
  - pose proof (sendTelemetry_log decodeResponse saasURL ispID collectFunc w) as H.
    cbv zeta in H. destruct H as (_ & _ & H). rewrite He in H.
    change (snapshot ispID (Err e)) with
      {| ISPID := ispID; CacheHits := 0; CacheMisses := 0; BandwidthSaved := 0;
         TotalRequests := 0; CacheSizeUsed := 0;
         CPUUsage := 0%float; MemoryUsage := 0%float |} in H.
    destruct (isOk _); [exact H |].
    destruct H as (a1 & a2 & H). exists a1, a2. exact H.
  - unfold cmd_agent.collectAndSendWith, bind.
    destruct (GetCacheStats "" w) as [[c|c] w1]; [discriminate | reflexivity].
Qed.

Lemma sendTelemetry_collect_failure_witness :
  log (snd (telemetry.sendTelemetry Sample.noBody agent.SAAS_URL 7
              Sample.failingCollector Sample.healthy)) =
    log (snd (Sample.failingCollector Sample.healthy)) ++
    [(telemetryPost agent.SAAS_URL (setISPID 7 zeroTelemetryData), true)] /\
  cmd_agent.collectAndSendWith Sample.noBody Sample.failingProvider nginx.GetSystemStats
    Sample.config Sample.healthy = (tt, Sample.healthy).
Proof.
  destruct (sendTelemetry_collect_failure Sample.noBody agent.SAAS_URL 7
              Sample.failingCollector Sample.healthy (Failure "stats")
              Sample.failingProvider nginx.GetSystemStats Sample.config
              (Failure "stats"))
    as (A & B & _); [reflexivity | reflexivity |].
  split; [exact A | exact B].
Defined.

(** C3 as stated fails.  With tenant 7, a failing collector and a network
    that drops the first request, the tick makes two send attempts, not one,
    and the snapshot they carry has the numeric field [ISPID] at 7, not at
    zero. *)
Lemma sendTelemetry_failed_collect_sends_twice :
  log (snd (telemetry.sendTelemetry Sample.noBody agent.SAAS_URL 7
              Sample.failingCollector Sample.flaky)) =
    [ (telemetryPost agent.SAAS_URL (setISPID 7 zeroTelemetryData), false);
      (SysSleep (5 * Second), true);
      (telemetryPost agent.SAAS_URL (setISPID 7 zeroTelemetryData), true) ] /\
  ISPID (setISPID 7 zeroTelemetryData) = 7.
Proof. vm_compute. split; reflexivity. Qed.

End TelemetryClaims.

(** ** Startup *)

Section Startup.

Variable decodeValidateResponse : string -> option ValidateResponse.
Variable decodeAPIResponse : string -> option APIResponse.

(** Whenever the root [main] gets as far as starting its goroutines, the
    license it validated has the status active; its expiry was not looked
    at.  The telemetry loop is started with the license key where
    [StartTelemetryLoop] expects the base URL. *)
Lemma main_serving flags w tasks :
  fst (agent.main decodeValidateResponse decodeAPIResponse flags w) = Serving tasks ->
  exists licenseKey licenseInfo,
    fst (license.LoadConfig w) = Ok licenseKey /\
    li_Status licenseInfo = "active" /\
    tasks =
      [ StartupUpdateCheck;
        UpdateLoop agent.SAAS_URL (24 * Hour);
        TelemetryLoop licenseKey (li_ISPID licenseInfo) (5 * Minute) licenseInfo ].
Proof.
  unfold agent.main, bind, ret.
  destruct (agent.versionFlag flags); [discriminate |].
  destruct (agent.hwidFlag flags).
  { destruct (hwid.Generate w) as [[id|e] w1]; discriminate. }
  destruct (agent.checkUpdateFlag flags).
  { destruct (updater.CheckForUpdates _ _ w) as [[r|e] w1]; discriminate. }
  destruct (license.LoadConfig w) as [[licenseKey|e] w1]; [|discriminate].
  destruct (hwid.GetOrCreate w1) as [[hardwareID [e|]] w2]; [discriminate |].
  destruct (agent.installFlag flags).
  { destruct (license.Validate _ _ _ _ w2) as [[licenseInfo|e] w3]; [|discriminate].
    destruct (negb _); discriminate. }
  destruct (license.Validate _ _ _ _ w2) as [[licenseInfo|e] w3]; [|discriminate].
  destruct (String.eqb_spec (li_Status licenseInfo) "active") as [Hs|Hs];
    cbn [negb fst]; [|discriminate].
  intros [= <-]. exists licenseKey, licenseInfo. auto.
Qed.

(** Without a flag the root [main] either starts its goroutines or dies in
    [log.Fatal], with exit code 1. *)
Lemma main_serving_or_fatal w :
  let outcome := fst (agent.main decodeValidateResponse decodeAPIResponse
                        {| agent.installFlag := false; agent.hwidFlag := false;
                           agent.versionFlag := false; agent.checkUpdateFlag := false |} w) in
  (exists tasks, outcome = Serving tasks) \/ exitCode outcome = Some 1.
Proof.
  cbv zeta. unfold agent.main, bind, ret. cbn [agent.versionFlag agent.hwidFlag
    agent.checkUpdateFlag agent.installFlag].
  destruct (license.LoadConfig w) as [[licenseKey|e] w1]; [|now right].
  destruct (hwid.GetOrCreate w1) as [[hardwareID [e|]] w2]; [now right |].
  destruct (license.Validate _ _ _ _ w2) as [[licenseInfo|e] w3]; [|now right].
  destruct (negb _); [now right | left; eauto].
Qed.

(** The stats provider as written returns no error: the branches of its
    callers for a failed collection are never taken. *)
Lemma provider_never_fails path w :
  isOk (fst (nginx.GetCacheStats path w)) = true /\
  isOk (fst (nginx.GetSystemStats w)) = true.
Proof. split; reflexivity. Qed.

End Startup.

(** C1 fails on the code.  The root [main] lets a license through whose
    status is active and whose expiry lies in the past: it starts the update
    check, the update loop and the telemetry loop.  [cmd/agent]'s [main]
    lets a license through that has not expired and whose status is
    inactive: it sends its first telemetry and exits with zero only when the
    signal arrives. *)
Theorem license_gate_incomplete :
  fst (license.IsExpired Sample.parseKnown (li_ExpiresAt Sample.activeExpired)
         Sample.servedActiveExpired) = true /\
  exitCode (fst (agent.main Sample.validateTable Sample.versionOnly Sample.noFlags
                   Sample.servedActiveExpired)) = None /\
  fst (agent.main Sample.validateTable Sample.versionOnly Sample.noFlags
         Sample.servedActiveExpired) =
    Serving
      [ StartupUpdateCheck;
        UpdateLoop agent.SAAS_URL (24 * Hour);
        TelemetryLoop "LK-123" 7 (5 * Minute) Sample.activeExpired ] /\
  li_Status Sample.inactiveValid = "inactive" /\
  fst (cmd_agent.main Sample.validateTable Sample.parseKnown Sample.noBody
         Sample.configTable Sample.installNothing false Sample.configPath 0
         Sample.servedInactiveValid) = Exit 0 /\
  log (snd (cmd_agent.main Sample.validateTable Sample.parseKnown Sample.noBody
              Sample.configTable Sample.installNothing false Sample.configPath 0
              Sample.servedInactiveValid)) =
    [ (SysReadFile Sample.configPath, true);
      (SysHttpPost "http://64.23.151.140/api/licenses/validate"
         (BodyValidate {| vr_LicenseKey := "LK-123";
                          vr_HWID := "ISP-0CAE8F2C7EE9AB5FCEEA28C9F8A50A74" |}), true);
      (telemetryPost "http://64.23.151.140" (setISPID 7 zeroTelemetryData), true) ].
Proof. vm_compute. repeat split; reflexivity. Qed.

(** C4 fails on the code.  The root [main] validates the license against
    the control plane's base URL and then starts the telemetry loop with the
    license key in the place of the base URL: the first tick addresses its
    snapshot, and the retry, to the path /api/telemetry under the license
    key. *)
Theorem telemetry_posted_under_license_key :
  fst (agent.main Sample.validateTable Sample.versionOnly Sample.noFlags
         Sample.servedActiveValid) =
    Serving
      [ StartupUpdateCheck;
        UpdateLoop agent.SAAS_URL (24 * Hour);
        TelemetryLoop "LK-123" 7 (5 * Minute) Sample.activeValid ] /\
  log (snd (agent.run Sample.versionOnly Sample.noBody
              (TelemetryLoop "LK-123" 7 (5 * Minute) Sample.activeValid) 0
              (snd (agent.main Sample.validateTable Sample.versionOnly Sample.noFlags
                      Sample.servedActiveValid)))) =
    [ (SysReadFile license.licenseKeyPath, true);
      (SysReadFile hwid.hwidPath, true);
      (SysHttpPost "http://64.23.151.140:8080/api/licenses/validate"
         (BodyValidate {| vr_LicenseKey := "LK-123";
                          vr_HWID := "ISP-0CAE8F2C7EE9AB5FCEEA28C9F8A50A74" |}), true);
      (SysHttpPost "LK-123/api/telemetry"
         (BodyTelemetry (setISPID 7 zeroTelemetryData)), false);
      (SysSleep (5 * Second), true);
      (SysHttpPost "LK-123/api/telemetry"
         (BodyTelemetry (setISPID 7 zeroTelemetryData)), false) ].
Proof. vm_compute. repeat split; reflexivity. Qed.

(** * Further properties *)

(** ** The identity store *)

Section IdentityStore.

Lemma Load_fst w :
  fst (hwid.Load w) =
  match files w !! hwid.hwidPath with
  | Some data => Ok (TrimSpace data)
  | None => Err (Failure "no such file")
  end.
Proof.
  unfold hwid.Load, try, bind, Sys.ReadFile, ret.
  destruct (files w !! hwid.hwidPath); reflexivity.
Qed.

Lemma Save_cases id w :
  if denied (host w) (SysWriteFile hwid.hwidPath id)
  then hwid.Save id w =
         (Err (Failure "operation failed"),
          record (SysWriteFile hwid.hwidPath id) false w)
  else hwid.Save id w =
         (Ok tt,
          record (SysWriteFile hwid.hwidPath id) true
            (withFiles (<[hwid.hwidPath := id]> (files w)) w)).
Proof.
  unfold hwid.Save, Sys.WriteFile, Sys.mutate. cbn [andb].
  destruct (denied (host w) _); reflexivity.
Qed.

(** What [GetOrCreate] returns and leaves behind when it finds no cache it
    can use. *)
Lemma GetOrCreate_miss_result w :
  cacheOf w = None ->
  if denied (host w) (SysWriteFile hwid.hwidPath (derived w))
  then fst (hwid.GetOrCreate w) = (derived w, Some (Failure "operation failed")) /\
       files (snd (hwid.GetOrCreate w)) = files w
  else fst (hwid.GetOrCreate w) = (derived w, None) /\
       files (snd (hwid.GetOrCreate w)) = <[hwid.hwidPath := derived w]> (files w).
Proof.
  intros Hc. unfold hwid.GetOrCreate, bind.
  assert (HL : onlyLogged w (snd (hwid.Load w)) /\
               match fst (hwid.Load w) with Ok (String _ _) => False | _ => True end).
  { revert Hc. unfold cacheOf, hwid.Load, try, bind, Sys.ReadFile, ret.
    destruct (files w !! hwid.hwidPath) as [data|]; cbn [fst snd].
    - destruct (TrimSpace data) as [|c t]; cbn [String.eqb]; [|discriminate].
      intros _. split; [apply onlyLogged_record | exact I].
    - intros _. split; [apply onlyLogged_record | exact I]. }
  destruct (hwid.Load w) as [l w1]. cbn [fst snd] in HL. destruct HL as [L1 Hl].
  assert (Hgen :
    let r := (let (g, w2) := hwid.Generate w1 in
              match g with
              | Err e => ret ("", Some e)
              | Ok hwid0 =>
                  let* _ := Sys.MkdirAll "/etc/isp-agent" in
                  let* s := hwid.Save hwid0 in
                  match s with
                  | Err e => ret (hwid0, Some e)
                  | Ok _ => ret (hwid0, None)
                  end
              end w2) in
    if denied (host w) (SysWriteFile hwid.hwidPath (derived w))
    then fst r = (derived w, Some (Failure "operation failed")) /\ files (snd r) = files w
    else fst r = (derived w, None) /\
         files (snd r) = <[hwid.hwidPath := derived w]> (files w)).
  { cbv zeta.
    pose proof (Generate_fst w1) as G. pose proof (Generate_logged w1) as L2.
    rewrite <- (derived_same _ _ L1). fold (derived w1) in G.
    destruct (hwid.Generate w1) as [g w2]. cbn [fst snd] in G, L2. subst g.
    pose proof (onlyLogged_trans _ _ _ L1 L2) as (Hh & Hf & _).
    unfold bind, Sys.MkdirAll, Sys.mutate, ret. cbn [andb].
    destruct (denied (host w2) (SysMkdirAll "/etc/isp-agent"));
      cbn [negb];
      match goal with
      | |- context [hwid.Save ?i ?x] =>
          pose proof (Save_cases i x) as S;
          cbn [host files record withFiles] in S; rewrite Hh in S
      end;
      destruct (denied (host w) (SysWriteFile hwid.hwidPath (derived w1)));
      rewrite S; cbn [fst snd files record withFiles]; rewrite Hf; split; reflexivity. }
  cbv zeta in Hgen.
  destruct l as [[|c t]|e]; [exact Hgen | contradiction | exact Hgen].
Qed.

End IdentityStore.

(** X1. An identity written by [Save] is read back by [Load]: whatever
    string is saved comes back trimmed, and an identity of the form
    [Generate] produces comes back as it was saved. *)
Theorem Save_then_Load (w : World) (id : string) :
  denied (host w) (SysWriteFile hwid.hwidPath id) = false ->
  fst (hwid.Save id w) = Ok tt /\
  fst (hwid.Load (snd (hwid.Save id w))) = Ok (TrimSpace id) /\
  (forall digest,
     id = "ISP-" +:+ hexUpper digest ->
     fst (hwid.Load (snd (hwid.Save id w))) = Ok id).
Proof.
  intros Hd. pose proof (Save_cases id w) as S. rewrite Hd in S. rewrite S.
  cbn [fst snd]. rewrite Load_fst. cbn [files record withFiles].
  rewrite lookup_insert_eq. repeat split.
  intros digest ->. now rewrite identity_trimmed.
Qed.

Lemma Save_then_Load_witness :
  fst (hwid.Load (snd (hwid.Save "ISP-0CAE8F2C7EE9AB5FCEEA28C9F8A50A74" Sample.fresh))) =
  Ok "ISP-0CAE8F2C7EE9AB5FCEEA28C9F8A50A74".
Proof.
  destruct (Save_then_Load Sample.fresh "ISP-0CAE8F2C7EE9AB5FCEEA28C9F8A50A74")
    as (_ & H & _); [reflexivity |].
  exact H.
Defined.

(** X2. When [GetOrCreate] finds no cache it can use, it returns the
    identity it derives.  Where the write is allowed the error is nil and
    the cache file holds that identity afterwards; where the write is
    refused the identity comes back together with the error, and no file
    has changed. *)
Theorem GetOrCreate_without_cache (w : World) :
  cacheOf w = None ->
  fst (fst (hwid.GetOrCreate w)) = derived w /\
  (denied (host w) (SysWriteFile hwid.hwidPath (derived w)) = false ->
   snd (fst (hwid.GetOrCreate w)) = None /\
   cacheOf (snd (hwid.GetOrCreate w)) = Some (derived w)) /\
  (denied (host w) (SysWriteFile hwid.hwidPath (derived w)) = true ->
   (exists e, snd (fst (hwid.GetOrCreate w)) = Some e) /\
   files (snd (hwid.GetOrCreate w)) = files w).
Proof.
  intros Hc. pose proof (GetOrCreate_miss_result w Hc) as H.
  destruct (denied (host w) _); destruct H as [R F]; rewrite R.
  - split; [reflexivity |]. split; [discriminate |]. intros _. split; [eauto | exact F].
  - split; [reflexivity |]. split; [| discriminate]. intros _. split; [reflexivity |].
    unfold cacheOf. rewrite F, lookup_insert_eq. unfold derived.
    rewrite identity_trimmed. reflexivity.
Qed.

Lemma GetOrCreate_without_cache_witness :
  fst (fst (hwid.GetOrCreate Sample.fresh)) = derived Sample.fresh /\
  cacheOf (snd (hwid.GetOrCreate Sample.fresh)) = Some (derived Sample.fresh).
Proof.
  destruct (GetOrCreate_without_cache Sample.fresh) as (R & A & _).
  - vm_compute. reflexivity.
  - split; [exact R |]. apply A. reflexivity.
Defined.

(** X3. The machine identifier of [Generate] is the trimmed content of
    /etc/machine-id whenever that file can be read, even when it is empty;
    else the trimmed content of /var/lib/dbus/machine-id; else the host
    name, and the empty string when the host name is not available
    either. *)
Theorem machineID_precedence (w : World) :
  fst (hwid.machineID w) =
  match files w !! hwid.machineIdPath with
  | Some data => TrimSpace data
  | None =>
      match files w !! hwid.dbusMachineIdPath with
      | Some data => TrimSpace data
      | None => default "" (hostname (host w))
      end
  end.
Proof.
  unfold hwid.machineID, hwid.readFile, try, bind, Sys.ReadFile, Sys.Hostname, ret.
  destruct (files w !! hwid.machineIdPath); [reflexivity |].
  cbn [files record].
  destruct (files w !! hwid.dbusMachineIdPath); [reflexivity |].
  cbn [host record].
  destruct (hostname (host w)); reflexivity.
Qed.

(** X4. [Generate] never returns an error: it always yields an identity of
    thirty-six bytes, and it changes neither a file nor the network's
    state. *)
Theorem Generate_never_fails (w : World) :
  exists id,
    fst (hwid.Generate w) = Ok id /\
    String.length id = 36%nat /\
    files (snd (hwid.Generate w)) = files w /\
    network (snd (hwid.Generate w)) = network w.
Proof.
  exists (derived w). rewrite Generate_fst.
  destruct (Generate_logged w) as (_ & Hf & Hn).
  repeat split; [apply identity_length | exact Hf | exact Hn].
Qed.

(** ** The license client *)

(** X5. [Validate] returns a license exactly when the network answers
    with a body that decodes to a response whose success flag is set, and
    then it returns the data of that response; the status code of the
    answer plays no part. *)
Theorem Validate_succeeds_iff
    (decode : string -> option ValidateResponse)
    (saasURL licenseKey hwid : string) (w : World) (licenseInfo : LicenseInfo) :
  fst (license.Validate decode saasURL licenseKey hwid w) = Ok licenseInfo <->
  exists status body rest response,
    network w = Answer status body :: rest /\
    decode body = Some response /\
    vresp_Success response = true /\
    vresp_Data response = licenseInfo.
Proof.
  unfold license.Validate, try, bind, Sys.Post, Sys.request, ret.
  destruct (network w) as [|[|status body] rest]; cbn [fst snd].
  - split; [discriminate | intros (? & ? & ? & ? & [=] & _)].
  - split; [discriminate | intros (? & ? & ? & ? & [=] & _)].
  - destruct (decode body) as [response|] eqn:Hd.
    + destruct (vresp_Success response) eqn:Hs; cbn [negb fst].
      * split.
        -- intros [= <-]. exists status, body, rest, response. auto.
        -- intros (? & ? & ? & r & [= <- <- <-] & Hd' & _ & <-).
           rewrite Hd in Hd'. now injection Hd' as <-.
      * split; [discriminate |].
        intros (? & ? & ? & r & [= <- <- <-] & Hd' & Hs' & _).
        rewrite Hd in Hd'. injection Hd' as <-. congruence.
    + split; [discriminate |].
      intros (? & ? & ? & r & [= <- <- <-] & Hd' & _). congruence.
Qed.

(** X6. Whatever its outcome, [Validate] makes exactly one request: a POST
    of the license key and the hardware id to /api/licenses/validate under
    the base URL; it changes no file. *)
Theorem Validate_one_request
    (decode : string -> option ValidateResponse)
    (saasURL licenseKey hwid : string) (w : World) :
  exists answered,
    log (snd (license.Validate decode saasURL licenseKey hwid w)) =
      (log w ++
       [(SysHttpPost (saasURL +:+ "/api/licenses/validate")
           (BodyValidate {| vr_LicenseKey := licenseKey; vr_HWID := hwid |}),
         answered)])%list /\
    files (snd (license.Validate decode saasURL licenseKey hwid w)) = files w.
Proof.
  unfold license.Validate, try, bind, Sys.Post, Sys.request, ret.
  destruct (network w) as [|[|status body] rest]; cbn [fst snd].
  - exists false. split; reflexivity.
  - exists false. split; reflexivity.
  - exists true. destruct (decode body) as [response|]; [|split; reflexivity].
    destruct (negb (vresp_Success response)); split; reflexivity.
Qed.

(** X7. A license key written by [SaveConfig] is read back by
    [LoadConfig], trimmed of the white space around it; the directory call
    before the write cannot make [SaveConfig] fail. *)
Theorem SaveConfig_then_LoadConfig (w : World) (licenseKey : string) :
  denied (host w) (SysWriteFile license.licenseKeyPath licenseKey) = false ->
  fst (license.SaveConfig licenseKey w) = Ok tt /\
  fst (license.LoadConfig (snd (license.SaveConfig licenseKey w))) =
    Ok (TrimSpace licenseKey).
Proof.
  intros Hd.
  unfold license.SaveConfig, license.LoadConfig, try, bind, Sys.MkdirAll,
    Sys.WriteFile, Sys.ReadFile, Sys.mutate, ret. cbn [andb].
  destruct (denied (host w) (SysMkdirAll "/etc/isp-agent"));
    cbn [negb host files record withFiles]; rewrite Hd;
    cbn [negb fst snd files record withFiles]; rewrite lookup_insert_eq;
    split; reflexivity.
Qed.

Lemma SaveConfig_then_LoadConfig_witness :
  fst (license.LoadConfig
         (snd (license.SaveConfig ("LK-123" +:+ Sample.newline) Sample.fresh))) =
  Ok "LK-123".
Proof.
  destruct (SaveConfig_then_LoadConfig Sample.fresh ("LK-123" +:+ Sample.newline))
    as [_ H]; [reflexivity |].
  exact H.
Defined.

(** X8. Once [IsExpired] holds of an expiry, it holds after any sleep:
    time only moves forward. *)
Theorem IsExpired_stays_expired
    (parseRFC3339 : string -> option Z) (expiresAt : string) (d : Z) (w : World) :
  fst (license.IsExpired parseRFC3339 expiresAt w) = true ->
  fst (license.IsExpired parseRFC3339 expiresAt (snd (Sys.Sleep d w))) = true.
Proof.
  unfold license.IsExpired, bind, Sys.Now, Sys.Sleep, ret.
  destruct (parseRFC3339 expiresAt) as [expiry|]; cbn [fst snd clock record advance];
    [|trivial].
  rewrite !Z.ltb_lt. lia.
Qed.

Lemma IsExpired_stays_expired_witness :
  fst (license.IsExpired Sample.parseKnown "2000-01-01T00:00:00Z"
         (snd (Sys.Sleep (5 * Second) Sample.fresh))) = true.
Proof.
  apply (IsExpired_stays_expired Sample.parseKnown "2000-01-01T00:00:00Z"
           (5 * Second) Sample.fresh).
  reflexivity.
Defined.

(** ** Sending *)

(** X9. [Send] succeeds exactly when the snapshot can be marshalled and
    the network answers with status 200 or 201: any other status, 204
    included, is an error. *)
Theorem Send_succeeds_iff
    (decodeResponse : string -> option Response)
    (saasURL : string) (data : TelemetryData) (w : World) :
  fst (telemetry.Send decodeResponse saasURL data w) = Ok tt <->
  telemetry.marshalable data = true /\
  exists status body rest,
    network w = Answer status body :: rest /\ (status = 200 \/ status = 201).
Proof.
  unfold telemetry.Send.
  destruct (telemetry.marshalable data); cbn [negb].
  - unfold try, bind, Sys.Post, Sys.request, ret.
    destruct (network w) as [|[|status body] rest]; cbn [fst snd].
    + split; [discriminate | intros (_ & ? & ? & ? & [=] & _)].
    + split; [discriminate | intros (_ & ? & ? & ? & [=] & _)].
    + destruct (Z.eqb_spec status 201) as [E1|E1];
        destruct (Z.eqb_spec status 200) as [E2|E2]; cbn [negb andb fst].
      * lia.
      * split; [intros _ | reflexivity]. split; [reflexivity |].
        exists status, body, rest. auto.
      * split; [intros _ | reflexivity]. split; [reflexivity |].
        exists status, body, rest. auto.
      * split; [discriminate |].
        intros (_ & ? & ? & ? & [= <- <- <-] & [H|H]); contradiction.
  - unfold ret. cbn [fst]. split; [discriminate | intros [[=] _]].
Qed.

(** X10. [SendCachedSite] is best effort: it posts the record to
    /api/sites/report and returns nil whenever the network answers, whatever
    the status of the answer. *)
Theorem SendCachedSite_succeeds_iff (saasURL : string) (data : SiteData) (w : World) :
  (fst (telemetry.SendCachedSite saasURL data w) = Ok tt <->
   exists status body rest, network w = Answer status body :: rest) /\
  exists answered,
    log (snd (telemetry.SendCachedSite saasURL data w)) =
      (log w ++ [(SysHttpPost (saasURL +:+ "/api/sites/report") (BodySite data),
                  answered)])%list.
Proof.
  unfold telemetry.SendCachedSite, try, bind, Sys.Post, Sys.request, ret.
  destruct (network w) as [|[|status body] rest]; cbn [fst snd].
  - split; [split; [discriminate | intros (? & ? & ? & [=])] | now exists false].
  - split; [split; [discriminate | intros (? & ? & ? & [=])] | now exists false].
  - split; [split; [eauto | reflexivity] | now exists true].
Qed.

(** X11. A snapshot with a float that is NaN or infinite is never put on
    the wire: both calls of [Send] fail before any request, so the tick
    adds the five-second sleep to the log and nothing else, and uses up no
    answer of the network. *)
Theorem sendTelemetry_unmarshalable
    (decodeResponse : string -> option Response) (saasURL : string) (ispID : Z)
    (collectFunc : IO (result TelemetryData)) (w : World) :
  telemetry.marshalable (snapshot ispID (fst (collectFunc w))) = false ->
  log (snd (telemetry.sendTelemetry decodeResponse saasURL ispID collectFunc w)) =
    (log (snd (collectFunc w)) ++ [(SysSleep (5 * Second), true)])%list /\
  network (snd (telemetry.sendTelemetry decodeResponse saasURL ispID collectFunc w)) =
    network (snd (collectFunc w)).
Proof.
  unfold telemetry.sendTelemetry, bind, snapshot.
  destruct (collectFunc w) as [c w1]. cbn [fst snd]. intros Hm.
  unfold telemetry.Send. rewrite Hm. cbn [negb]. unfold ret, Sys.Sleep.
  split; reflexivity.
Qed.

Lemma sendTelemetry_unmarshalable_witness :
  log (snd (telemetry.sendTelemetry Sample.noBody agent.SAAS_URL 7
              Sample.nanCollector Sample.healthy)) =
    [(SysSleep (5 * Second), true)] /\
  network (snd (telemetry.sendTelemetry Sample.noBody agent.SAAS_URL 7
                  Sample.nanCollector Sample.healthy)) = [Answer 200 ""].
Proof.
  apply (sendTelemetry_unmarshalable Sample.noBody agent.SAAS_URL 7
           Sample.nanCollector Sample.healthy).
  vm_compute. reflexivity.
Defined.

(** ** The loops *)

Section Loops.

Local Open Scope list_scope.







Lemma updateTick_settled decode saasURL w :
  forallb (settled decode) (network w) = true ->
  exists answered,
    log (snd (updater.updateTick decode saasURL w)) =
      log w ++ [(versionGet saasURL, answered)] /\
    files (snd (updater.updateTick decode saasURL w)) = files w /\
    forallb (settled decode) (network (snd (updater.updateTick decode saasURL w))) = true.
Proof.
  unfold updater.updateTick, updater.CheckForUpdates, try, bind, Sys.Get,
    Sys.request, ret, versionGet.
  destruct (network w) as [|[|status body] rest] eqn:Hn; cbn [forallb settled fst snd].
  - intros _. exists false. cbn. rewrite Hn. auto.
  - intros H. exists false. cbn. auto.
  - destruct (decode body) as [apiResp|]; cbn [fst snd].
    + destruct (api_Success apiResp); cbn [negb orb fst snd].
      * intros H. apply andb_true_iff in H as [Hv Hr]. rewrite Hv. cbn [negb].
        exists true. cbn. auto.
      * intros H. exists true. cbn. auto.
    + intros H. exists true. cbn. auto.
Qed.

End Loops.



(** X13. While every answer of the control plane is an outage, does not
    decode, reports a failure or publishes the running version, the update
    loop changes no file: each firing of its ticker makes one GET of
    /api/agent/version/latest and nothing else.  The loop makes no check
    before the first firing. *)
Theorem StartUpdateLoop_settled
    (decode : string -> option APIResponse) (saasURL : string) (interval : Z)
    (ticks : nat) (w : World) :
  forallb (settled decode) (network w) = true ->
  0 < interval ->
  exists answered,
    length answered = ticks /\
    log (snd (updater.StartUpdateLoop decode saasURL interval ticks w)) =
      (log w ++ map (fun a => (versionGet saasURL, a)) answered)%list /\
    files (snd (updater.StartUpdateLoop decode saasURL interval ticks w)) = files w.
Proof.
  intros Hs Hi. unfold updater.StartUpdateLoop.
  destruct (Z.leb_spec interval 0); [lia |]. unfold bind.
  assert (H' : exists answered,
             length answered = ticks /\
             log (snd (forTicks ticks (updater.updateTick decode saasURL) w)) =
               (log w ++ map (fun a => (versionGet saasURL, a)) answered)%list /\
             files (snd (forTicks ticks (updater.updateTick decode saasURL) w)) = files w).
  { clear Hi. revert w Hs. induction ticks as [|n IH]; intros w Hs.
    - exists []. cbn. rewrite app_nil_r. auto.
    - cbn [forTicks]. unfold bind.
      destruct (updateTick_settled decode saasURL w Hs) as (a & L & F & S).
      destruct (updater.updateTick decode saasURL w) as [[] w1]. cbn [snd] in *.
      destruct (IH w1 S) as (l & Hl & L' & F').
      exists (a :: l). cbn [length map]. rewrite L', L, <- app_assoc, F', F.
      repeat split. now rewrite Hl. }
  destruct H' as (answered & Hl & L & F).
  destruct (forTicks ticks _ w) as [[] w1]. unfold ret. cbn [snd] in *.
  exists answered. auto.
Qed.

Lemma StartUpdateLoop_settled_witness :
  exists answered,
    length answered = 3%nat /\
    log (snd (updater.StartUpdateLoop Sample.versionOnly agent.SAAS_URL (24 * Hour) 3
                Sample.upToDate)) =
      (log Sample.upToDate ++ map (fun a => (versionGet agent.SAAS_URL, a)) answered)%list /\
    files (snd (updater.StartUpdateLoop Sample.versionOnly agent.SAAS_URL (24 * Hour) 3
                  Sample.upToDate)) = files Sample.upToDate.
Proof.
  apply (StartUpdateLoop_settled Sample.versionOnly agent.SAAS_URL (24 * Hour) 3
           Sample.upToDate); reflexivity.
Defined.

(** ** The updater *)

(** X14. [CheckForUpdates] succeeds exactly when the network answers with a
    body that decodes to a response whose success flag is set; it then
    returns the data of that response and whether its version differs from
    the running one.  The status code of the answer plays no part. *)
Theorem CheckForUpdates_succeeds_iff
    (decode : string -> option APIResponse) (saasURL : string) (w : World)
    (version : VersionInfo) (needsUpdate : bool) :
  fst (updater.CheckForUpdates decode saasURL w) = Ok (version, needsUpdate) <->
  exists status body rest apiResp,
    network w = Answer status body :: rest /\
    decode body = Some apiResp /\
    api_Success apiResp = true /\
    api_Data apiResp = version /\
    needsUpdate = negb (String.eqb (vi_Version version) updater.CurrentVersion).
Proof.
  unfold updater.CheckForUpdates, try, bind, Sys.Get, Sys.request, ret.
  destruct (network w) as [|[|status body] rest]; cbn [fst snd].
  - split; [discriminate | intros (? & ? & ? & ? & [=] & _)].
  - split; [discriminate | intros (? & ? & ? & ? & [=] & _)].
  - destruct (decode body) as [apiResp|] eqn:Hd.
    + destruct (api_Success apiResp) eqn:Hs; cbn [negb fst].
      * split.
        -- intros [= <- <-]. exists status, body, rest, apiResp. auto.
        -- intros (? & ? & ? & r & [= <- <- <-] & Hd' & _ & <- & ->).
           rewrite Hd in Hd'. now injection Hd' as <-.
      * split; [discriminate |].
        intros (? & ? & ? & r & [= <- <- <-] & Hd' & Hs' & _).
        rewrite Hd in Hd'. injection Hd' as <-. congruence.
    + split; [discriminate |].
      intros (? & ? & ? & r & [= <- <- <-] & Hd' & _). congruence.
Qed.

Section InstallSteps.

Ltac files_simpl :=
  cbn [fst snd network files host log clock record withFiles withNetwork
       andb negb] in *.

(** The run of [DownloadAndInstall] on a host that refuses nothing. *)
Lemma DownloadAndInstall_run version w exePath old status body rest :
  executable (host w) = Some exePath ->
  files w !! exePath = Some old ->
  network w = Answer status body :: rest ->
  (forall c, denied (host w) c = false) ->
  exists restarted w',
    updater.DownloadAndInstall version w = (Ok tt, w') /\
    files w' =
      <[exePath := body]>
        (delete (exePath +:+ ".new")
           (<[exePath +:+ ".backup" := old]>
              (delete exePath
                 (<[exePath +:+ ".new" := body]>
                    (<[exePath +:+ ".new" := ""]> (files w)))))) /\
    last (log w') = Some (SysExec "systemctl restart isp-agent", restarted).
Proof.
  intros Hexe Hold Hnet Hden.
  pose proof (temp_not_exe exePath) as N1.
  pose proof (backup_not_exe exePath) as N2.
  pose proof (temp_not_backup exePath) as N3.
  unfold updater.DownloadAndInstall, try, bind, Sys.Executable.
  rewrite Hexe.
  unfold Sys.Get, Sys.request. files_simpl. rewrite Hnet. files_simpl.
  unfold Sys.Create, Sys.mutate at 1. files_simpl. rewrite Hden. files_simpl.
  unfold Sys.Copy, Sys.mutate at 1. files_simpl. rewrite Hden. files_simpl.
  unfold Sys.Chmod, Sys.mutate at 1. files_simpl.
  rewrite lookup_insert_eq, Hden.
  rewrite bool_decide_eq_true_2 by eauto. files_simpl.
  unfold Sys.Rename at 1. files_simpl.
  rewrite !lookup_insert_ne, Hold by done.
  unfold Sys.mutate at 1. files_simpl. rewrite Hden. files_simpl.
  unfold Sys.Rename at 1. files_simpl.
  rewrite lookup_insert_ne, lookup_delete_ne, lookup_insert_eq by done.
  unfold Sys.mutate at 1. files_simpl. rewrite Hden. files_simpl.
  unfold Sys.Run, Sys.Output, try, bind, ret. files_simpl.
  destruct (commands (host w) "systemctl restart isp-agent"); files_simpl.
  - eexists true, _. split; [reflexivity |]. split; [reflexivity |].
    apply last_snoc.
  - eexists false, _. split; [reflexivity |]. split; [reflexivity |].
    apply last_snoc.
Qed.

End InstallSteps.

(** X15. On a host that refuses nothing, with the running binary in place
    and any answer to the download request, whatever its status,
    [DownloadAndInstall] succeeds: the body of the answer is at the
    executable's path, the old binary at the backup path, the temporary
    file is gone, and the last call is the restart of the service, whose
    failure does not fail the installation.  The checksum of the version is
    not consulted. *)
Theorem DownloadAndInstall_installs
    (version : VersionInfo) (w : World) (exePath old body : string)
    (status : Z) (rest : list Reply) :
  executable (host w) = Some exePath ->
  files w !! exePath = Some old ->
  network w = Answer status body :: rest ->
  (forall c, denied (host w) c = false) ->
  fst (updater.DownloadAndInstall version w) = Ok tt /\
  files (snd (updater.DownloadAndInstall version w)) !! exePath = Some body /\
  files (snd (updater.DownloadAndInstall version w)) !! (exePath +:+ ".backup") =
    Some old /\
  files (snd (updater.DownloadAndInstall version w)) !! (exePath +:+ ".new") = None /\
  exists restarted,
    last (log (snd (updater.DownloadAndInstall version w))) =
      Some (SysExec "systemctl restart isp-agent", restarted).
Proof.
  intros Hexe Hold Hnet Hden.
  pose proof (temp_not_exe exePath) as N1.
  pose proof (backup_not_exe exePath) as N2.
  pose proof (temp_not_backup exePath) as N3.
  destruct (DownloadAndInstall_run version w exePath old status body rest
              Hexe Hold Hnet Hden) as (restarted & w' & -> & F & L).
  cbn [fst snd]. rewrite F.
  split; [reflexivity |]. split; [apply lookup_insert_eq |].
  split; [| split; [| now exists restarted]].
  - rewrite lookup_insert_ne, lookup_delete_ne, lookup_insert_eq by done. reflexivity.
  - rewrite lookup_insert_ne, lookup_delete_eq by done. reflexivity.
Qed.

Lemma DownloadAndInstall_installs_witness :
  fst (updater.DownloadAndInstall Sample.release099 Sample.downloadNotFound) = Ok tt /\
  files (snd (updater.DownloadAndInstall Sample.release099 Sample.downloadNotFound))
    !! Sample.exe = Some "not found".
Proof.
  destruct (DownloadAndInstall_installs Sample.release099 Sample.downloadNotFound
              Sample.exe "binary 1.0.0" "not found" 404 [])
    as (R & F & _); try reflexivity.
  split; [exact R | exact F].
Defined.

(** X16. Whenever [DownloadAndInstall] returns nil, the network had
    answered the download request, the body of that answer is at the
    executable's path, and what was at that path before the call is at the
    backup path. *)
Theorem DownloadAndInstall_success_keeps_backup
    (version : VersionInfo) (w w' : World) (exePath : string) :
  executable (host w) = Some exePath ->
  updater.DownloadAndInstall version w = (Ok tt, w') ->
  exists status body rest,
    network w = Answer status body :: rest /\
    files w' !! exePath = Some body /\
    files w' !! (exePath +:+ ".backup") = files w !! exePath.
Proof. apply DownloadAndInstall_success. Qed.

Lemma DownloadAndInstall_success_keeps_backup_witness :
  exists status body rest,
    network Sample.downloadNotFound = Answer status body :: rest /\
    files (snd (updater.DownloadAndInstall Sample.release099 Sample.downloadNotFound))
      !! Sample.exe = Some body /\
    files (snd (updater.DownloadAndInstall Sample.release099 Sample.downloadNotFound))
      !! (Sample.exe +:+ ".backup") = files Sample.downloadNotFound !! Sample.exe.
Proof.
  apply (DownloadAndInstall_success_keeps_backup Sample.release099
           Sample.downloadNotFound
           (snd (updater.DownloadAndInstall Sample.release099 Sample.downloadNotFound))
           Sample.exe).
  - reflexivity.
  - vm_compute. reflexivity.
Defined.

(** X17. The update check at startup and the periodic one are the same
    check: after its sleep of thirty seconds the startup goroutine does
    what one firing of the update loop's ticker does. *)
Theorem startupUpdateCheck_is_one_tick
    (decode : string -> option APIResponse) (w : World) :
  snd (agent.startupUpdateCheck decode w) =
  snd (updater.StartUpdateLoop decode agent.SAAS_URL (24 * Hour) 1
         (snd (Sys.Sleep (30 * Second) w))).
Proof.
  unfold agent.startupUpdateCheck, updater.StartUpdateLoop, updater.updateTick,
    forTicks, bind, ret.
  change (24 * Hour <=? 0) with false. cbv beta iota.
  destruct (Sys.Sleep (30 * Second) w) as [[] w1]. cbn [snd].
  destruct (updater.CheckForUpdates decode agent.SAAS_URL w1) as [[[v n]|e] w2];
    [|reflexivity].
  destruct n; [|reflexivity].
  destruct (updater.DownloadAndInstall v w2) as [r w3]. reflexivity.
Qed.

(** ** Startup of the root build *)

Section RootStartup.

Variable decodeValidateResponse : string -> option ValidateResponse.
Variable decodeAPIResponse : string -> option APIResponse.

Lemma LoadConfig_cases w :
  license.LoadConfig w =
  match files w !! license.licenseKeyPath with
  | Some data => (Ok (TrimSpace data), record (SysReadFile license.licenseKeyPath) true w)
  | None =>
      (Err (Failure "no such file"), record (SysReadFile license.licenseKeyPath) false w)
  end.
Proof.
  unfold license.LoadConfig, try, bind, Sys.ReadFile, ret.
  destruct (files w !! license.licenseKeyPath); reflexivity.
Qed.

Lemma cacheOf_same w w' : onlyLogged w w' -> cacheOf w' = cacheOf w.
Proof. intros (_ & Hf & _). unfold cacheOf. now rewrite Hf. Qed.

(** [GetOrCreate] leaves the network as it is. *)
Lemma GetOrCreate_network w : network (snd (hwid.GetOrCreate w)) = network w.
Proof.
  unfold hwid.GetOrCreate, bind.
  assert (HL : network (snd (hwid.Load w)) = network w).
  { unfold hwid.Load, try, bind, Sys.ReadFile, ret.
    destruct (files w !! hwid.hwidPath); reflexivity. }
  destruct (hwid.Load w) as [l w1]. cbn [snd] in HL.
  assert (Hgen :
    network (snd ((let (g, w2) := hwid.Generate w1 in
                   match g with
                   | Err e => ret ("", Some e)
                   | Ok hwid0 =>
                       let* _ := Sys.MkdirAll "/etc/isp-agent" in
                       let* s := hwid.Save hwid0 in
                       match s with
                       | Err e => ret (hwid0, Some e)
                       | Ok _ => ret (hwid0, None)
                       end
                   end w2))) = network w).
  { destruct (Generate_logged w1) as (_ & _ & Hn).
    destruct (hwid.Generate w1) as [[id|e] w2]; cbn [snd] in Hn.
    - unfold bind, Sys.MkdirAll, hwid.Save, Sys.WriteFile, Sys.mutate, ret.
      cbn [andb].
      destruct (negb (denied (host w2) _));
        cbn [host files record withFiles];
        destruct (negb (denied (host w2) _)); cbn [snd network record withFiles];
        congruence.
    - unfold ret. cbn [snd]. congruence. }
  destruct l as [[|c t]|e]; [exact Hgen | unfold ret; exact HL | exact Hgen].
Qed.

End RootStartup.

(** X18. Without [-version], [-hwid] and [-check-update], the root [main]
    reads the license key before anything else: when the key file is
    missing it dies with "Failed to load license config" having made no
    other call, and this holds for [-install] as well. *)
Theorem main_needs_license_key
    (decodeValidateResponse : string -> option ValidateResponse)
    (decodeAPIResponse : string -> option APIResponse)
    (flags : agent.Flags) (w : World) :
  agent.versionFlag flags = false ->
  agent.hwidFlag flags = false ->
  agent.checkUpdateFlag flags = false ->
  files w !! license.licenseKeyPath = None ->
  agent.main decodeValidateResponse decodeAPIResponse flags w =
    (Fatal "Failed to load license config",
     record (SysReadFile license.licenseKeyPath) false w).
Proof.
  intros Hv Hh Hc Hf. unfold agent.main. rewrite Hv, Hh, Hc. unfold bind.
  rewrite LoadConfig_cases, Hf. reflexivity.
Qed.

Lemma main_needs_license_key_witness :
  agent.main Sample.validateTable Sample.versionOnly Sample.installOnly Sample.fresh =
    (Fatal "Failed to load license config",
     record (SysReadFile license.licenseKeyPath) false Sample.fresh).
Proof.
  apply (main_needs_license_key Sample.validateTable Sample.versionOnly
           Sample.installOnly Sample.fresh); reflexivity.
Defined.

(** X19. When the root [main] has a license key but no cached identity and
    the identity it derives cannot be written, it dies with "Failed to get
    hardware ID": the derived identity is not used, and the control plane
    is never asked. *)
Theorem main_unsaved_identity_is_fatal
    (decodeValidateResponse : string -> option ValidateResponse)
    (decodeAPIResponse : string -> option APIResponse)
    (flags : agent.Flags) (w : World) (key : string) :
  agent.versionFlag flags = false ->
  agent.hwidFlag flags = false ->
  agent.checkUpdateFlag flags = false ->
  files w !! license.licenseKeyPath = Some key ->
  cacheOf w = None ->
  denied (host w) (SysWriteFile hwid.hwidPath (derived w)) = true ->
  fst (agent.main decodeValidateResponse decodeAPIResponse flags w) =
    Fatal "Failed to get hardware ID" /\
  network (snd (agent.main decodeValidateResponse decodeAPIResponse flags w)) =
    network w.
Proof.
  intros Hv Hh Hc Hk Hcache Hd. unfold agent.main. rewrite Hv, Hh, Hc. unfold bind.
  rewrite LoadConfig_cases, Hk.
  set (w1 := record (SysReadFile license.licenseKeyPath) true w).
  assert (L : onlyLogged w w1) by apply onlyLogged_record.
  pose proof (GetOrCreate_miss_result w1) as M.
  rewrite (cacheOf_same _ _ L), (derived_same _ _ L) in M.
  destruct L as (Hhost & _ & Hn). rewrite Hhost, Hd in M.
  destruct (M Hcache) as [R _].
  pose proof (GetOrCreate_network w1) as N.
  destruct (hwid.GetOrCreate w1) as [[id err] w2]. cbn [fst snd] in *.
  injection R as -> ->. unfold ret. cbn [fst snd]. split; [reflexivity | congruence].
Qed.

Lemma main_unsaved_identity_is_fatal_witness :
  fst (agent.main Sample.validateTable Sample.versionOnly Sample.noFlags
         Sample.readOnlyLicensed) = Fatal "Failed to get hardware ID" /\
  network (snd (agent.main Sample.validateTable Sample.versionOnly Sample.noFlags
                  Sample.readOnlyLicensed)) = network Sample.readOnlyLicensed.
Proof.
  apply (main_unsaved_identity_is_fatal Sample.validateTable Sample.versionOnly
           Sample.noFlags Sample.readOnlyLicensed "LK-123");
    vm_compute; reflexivity.
Defined.

(** X20. The root [main] gets as far as blocking on the signal channel
    exactly when no flag is given, the license key loads, the hardware id is
    had without an error, and [Validate], asked at the control plane's URL
    with that key and that id, returns a license whose status is active.
    It has then started exactly three goroutines: the update check at
    startup, the update loop on the control plane's URL every twenty-four
    hours, and the telemetry loop every five minutes for the tenant of the
    license it validated, handed the license key read from the key file as
    its first argument. *)
Theorem main_starts_three_goroutines
    (decodeValidateResponse : string -> option ValidateResponse)
    (decodeAPIResponse : string -> option APIResponse)
    (flags : agent.Flags) (w : World) (tasks : list Task) :
  fst (agent.main decodeValidateResponse decodeAPIResponse flags w) = Serving tasks <->
  agent.versionFlag flags = false /\
  agent.hwidFlag flags = false /\
  agent.checkUpdateFlag flags = false /\
  agent.installFlag flags = false /\
  exists licenseKey hardwareID licenseInfo,
    fst (license.LoadConfig w) = Ok licenseKey /\
    fst (hwid.GetOrCreate (snd (license.LoadConfig w))) = (hardwareID, None) /\
    fst (license.Validate decodeValidateResponse agent.SAAS_URL licenseKey hardwareID
           (snd (hwid.GetOrCreate (snd (license.LoadConfig w))))) = Ok licenseInfo /\
    li_Status licenseInfo = "active" /\
    tasks =
      [ StartupUpdateCheck;
        UpdateLoop agent.SAAS_URL (24 * Hour);
        TelemetryLoop licenseKey (li_ISPID licenseInfo) (5 * Minute) licenseInfo ].
Proof.
  unfold agent.main, bind, ret. split.
  - destruct (agent.versionFlag flags); [discriminate |].
    destruct (agent.hwidFlag flags).
    { destruct (hwid.Generate w) as [[id|e] w1]; discriminate. }
    destruct (agent.checkUpdateFlag flags).
    { destruct (updater.CheckForUpdates _ _ w) as [[r|e] w1]; discriminate. }
    destruct (license.LoadConfig w) as [[licenseKey|e] w1]; [|discriminate].
    cbn [fst snd].
    destruct (hwid.GetOrCreate w1) as [[hardwareID [e|]] w2]; [discriminate |].
    cbn [fst snd].
    destruct (agent.installFlag flags).
    { destruct (license.Validate _ _ _ _ w2) as [[licenseInfo|e] w3]; [|discriminate].
      destruct (negb _); discriminate. }
    destruct (license.Validate _ _ _ _ w2) as [[licenseInfo|e] w3] eqn:EV;
      [|discriminate].
    destruct (String.eqb_spec (li_Status licenseInfo) "active") as [Hs|Hs];
      cbn [negb fst]; [|discriminate].
    intros [= <-]. repeat split. exists licenseKey, hardwareID, licenseInfo.
    rewrite EV. auto.
  - intros (-> & -> & -> & -> & licenseKey & hardwareID & licenseInfo
            & HK & HH & HV & HS & ->).
    destruct (license.LoadConfig w) as [k w1]. cbn [fst snd] in *. subst k.
    destruct (hwid.GetOrCreate w1) as [h w2]. cbn [fst snd] in *. subst h.
    destruct (license.Validate _ _ _ _ w2) as [v w3]. cbn [fst snd] in *. subst v.
    rewrite HS. reflexivity.
Qed.

Lemma main_starts_three_goroutines_witness :
  fst (agent.main Sample.validateTable Sample.versionOnly Sample.noFlags
         Sample.servedActiveValid) =
    Serving
      [ StartupUpdateCheck;
        UpdateLoop agent.SAAS_URL (24 * Hour);
        TelemetryLoop "LK-123" 7 (5 * Minute) Sample.activeValid ].
Proof.
  apply (proj2 (main_starts_three_goroutines Sample.validateTable Sample.versionOnly
                  Sample.noFlags Sample.servedActiveValid _)).
  repeat (split; [reflexivity |]).
  exists "LK-123"%string, "ISP-0CAE8F2C7EE9AB5FCEEA28C9F8A50A74"%string,
    Sample.activeValid.
  vm_compute. repeat split; reflexivity.
Defined.

(** X21. With [-install] the root [main] starts nothing: every run ends
    with exit code 0 or 1. *)
Theorem main_install_exits
    (decodeValidateResponse : string -> option ValidateResponse)
    (decodeAPIResponse : string -> option APIResponse)
    (flags : agent.Flags) (w : World) :
  agent.installFlag flags = true ->
  exitCode (fst (agent.main decodeValidateResponse decodeAPIResponse flags w)) = Some 0 \/
  exitCode (fst (agent.main decodeValidateResponse decodeAPIResponse flags w)) = Some 1.
Proof.
  intros Hi. unfold agent.main, bind, ret. rewrite Hi.
  destruct (agent.versionFlag flags); [now left |].
  destruct (agent.hwidFlag flags).
  { destruct (hwid.Generate w) as [[id|e] w1]; [now left | now right]. }
  destruct (agent.checkUpdateFlag flags).
  { destruct (updater.CheckForUpdates _ _ w) as [[r|e] w1]; [now left | now right]. }
  destruct (license.LoadConfig w) as [[licenseKey|e] w1]; [|now right].
  destruct (hwid.GetOrCreate w1) as [[hardwareID [e|]] w2]; [now right |].
  destruct (license.Validate _ _ _ _ w2) as [[licenseInfo|e] w3]; [|now right].
  destruct (negb _); [now right | now left].
Qed.

Lemma main_install_exits_witness :
  exitCode (fst (agent.main Sample.validateTable Sample.versionOnly Sample.installOnly
                   Sample.servedActiveValid)) = Some 0 \/
  exitCode (fst (agent.main Sample.validateTable Sample.versionOnly Sample.installOnly
                   Sample.servedActiveValid)) = Some 1.
Proof.
  apply (main_install_exits Sample.validateTable Sample.versionOnly Sample.installOnly
           Sample.servedActiveValid).
  reflexivity.
Defined.

(** X22. With [-hwid] (and without [-version]) the root [main] always exits
    with zero: it derives the identity afresh, reads neither the cached
    identity nor the license key into its result, writes no file and asks
    the network nothing. *)
Theorem main_hwid_flag
    (decodeValidateResponse : string -> option ValidateResponse)
    (decodeAPIResponse : string -> option APIResponse)
    (flags : agent.Flags) (w : World) :
  agent.versionFlag flags = false ->
  agent.hwidFlag flags = true ->
  agent.main decodeValidateResponse decodeAPIResponse flags w =
    (Exit 0, snd (hwid.Generate w)) /\
  files (snd (hwid.Generate w)) = files w /\
  network (snd (hwid.Generate w)) = network w.
Proof.
  intros Hv Hh. unfold agent.main, bind, ret. rewrite Hv, Hh.
  pose proof (Generate_fst w) as G. destruct (Generate_logged w) as (_ & Hf & Hn).
  destruct (hwid.Generate w) as [g w1]. cbn [fst snd] in *. subst g.
  repeat split; assumption.
Qed.

Lemma main_hwid_flag_witness :
  agent.main Sample.validateTable Sample.versionOnly Sample.hwidOnly
    Sample.cachedWithNewline =
    (Exit 0, snd (hwid.Generate Sample.cachedWithNewline)) /\
  files (snd (hwid.Generate Sample.cachedWithNewline)) = files Sample.cachedWithNewline /\
  network (snd (hwid.Generate Sample.cachedWithNewline)) =
    network Sample.cachedWithNewline.
Proof.
  apply (main_hwid_flag Sample.validateTable Sample.versionOnly Sample.hwidOnly
           Sample.cachedWithNewline); reflexivity.
Defined.

(** X26. With [-check-update] (and without [-version] and [-hwid]) the root
    [main] makes one GET of /api/agent/version/latest under the control
    plane's URL and no other call: it reads no license key, changes no
    file, and installs nothing even when a newer version is published.  It
    exits with zero exactly when the check succeeds and dies with "Update
    check failed" otherwise. *)
Theorem main_check_update_flag
    (decodeValidateResponse : string -> option ValidateResponse)
    (decodeAPIResponse : string -> option APIResponse)
    (flags : agent.Flags) (w : World) :
  agent.versionFlag flags = false ->
  agent.hwidFlag flags = false ->
  agent.checkUpdateFlag flags = true ->
  (exists answered,
     log (snd (agent.main decodeValidateResponse decodeAPIResponse flags w)) =
       (log w ++ [(versionGet agent.SAAS_URL, answered)])%list) /\
  files (snd (agent.main decodeValidateResponse decodeAPIResponse flags w)) = files w /\
  fst (agent.main decodeValidateResponse decodeAPIResponse flags w) =
    if isOk (fst (updater.CheckForUpdates decodeAPIResponse agent.SAAS_URL w))
    then Exit 0 else Fatal "Update check failed".
Proof.
  intros Hv Hh Hc. unfold agent.main, bind. rewrite Hv, Hh, Hc.
  unfold updater.CheckForUpdates, try, bind, Sys.Get, Sys.request, ret, versionGet.
  destruct (network w) as [|[|status body] rest]; cbn [fst snd].
  - split; [now exists false | split; reflexivity].
  - split; [now exists false | split; reflexivity].
  - destruct (decodeAPIResponse body) as [apiResp|]; cbn [fst snd].
    + destruct (api_Success apiResp); cbn [negb fst snd];
        (split; [now exists true | split; reflexivity]).
    + split; [now exists true | split; reflexivity].
Qed.

Lemma main_check_update_flag_witness :
  fst (agent.main Sample.validateTable Sample.versionOnly Sample.checkUpdateOnly
         Sample.olderPublished) = Exit 0 /\
  files (snd (agent.main Sample.validateTable Sample.versionOnly Sample.checkUpdateOnly
                Sample.olderPublished)) = files Sample.olderPublished.
Proof.
  destruct (main_check_update_flag Sample.validateTable Sample.versionOnly
              Sample.checkUpdateOnly Sample.olderPublished)
    as (_ & F & R); try reflexivity.
  split; [exact R | exact F].
Defined.

(** ** The [cmd/agent] build *)

Section CmdAgent.

Local Open Scope list_scope.

Variable decodeResponse : string -> option Response.

(** A loop over a list whose body makes one request per element makes
    those requests in the order of the list. *)
Lemma forEach_log {A} (xs : list A) (body : A -> IO unit) (req : A -> Syscall) :
  (forall x w, exists a, log (snd (body x w)) = log w ++ [(req x, a)]) ->
  forall w, exists answered,
    length answered = length xs /\
    log (snd (forEach xs body w)) = log w ++ combine (map req xs) answered.
Proof.
  intros Hbody. induction xs as [|x xs IH]; intros w.
  - exists []. cbn. now rewrite app_nil_r.
  - cbn [forEach]. unfold bind.
    destruct (Hbody x w) as (a & L).
    destruct (body x w) as [[] w1]. cbn [snd] in L.
    destruct (IH w1) as (l & Hl & L').
    exists (a :: l). cbn [length map combine]. rewrite L', L, <- app_assoc.
    split; [now rewrite Hl | reflexivity].
Qed.

End CmdAgent.

(** X23. One round of [collectAndSend] sends the snapshot once and does not
    retry.  When that send fails nothing else is sent.  When it succeeds,
    one report per top domain follows, in order, each posted once to
    /api/sites/report whatever answer it gets; when the top domains cannot
    be had, nothing follows.  The snapshot carries the tenant of the
    configuration, a bandwidth of twice its hits and, as total requests,
    the sum of its hits and misses. *)
Theorem collectAndSend_reports
    (decodeResponse : string -> option Response)
    (config : cmd_agent.Config) (w : World) :
  exists data,
    ISPID data = cmd_agent.cfg_ISPID config /\
    BandwidthSaved data = wrap64 (CacheHits data * 2) /\
    TotalRequests data = wrap64 (CacheHits data + CacheMisses data) /\
    if isOk (fst (telemetry.Send decodeResponse (cmd_agent.cfg_SaasURL config) data w))
    then
      exists answered,
        length answered = length (default [] (topDomains (host w))) /\
        log (snd (cmd_agent.collectAndSend decodeResponse config w)) =
          (log w
           ++ [(telemetryPost (cmd_agent.cfg_SaasURL config) data, true)]
           ++ combine
                (map (sitePost (cmd_agent.cfg_SaasURL config) (cmd_agent.cfg_ISPID config))
                   (default [] (topDomains (host w))))
                answered)%list
    else
      exists answered,
        log (snd (cmd_agent.collectAndSend decodeResponse config w)) =
          (log w ++ attempt (cmd_agent.cfg_SaasURL config) data answered)%list.
Proof.
  unfold cmd_agent.collectAndSend, bind, nginx.GetCacheStats, nginx.GetSystemStats.
  cbn [String.eqb cs_Hits cs_Misses cs_BytesServed cs_CacheSizeUsed cs_TotalRequests].
  set (stats := scrape (host w) nginx.defaultAccessLog).
  set (data := {| ISPID := cmd_agent.cfg_ISPID config;
                  CacheHits := cs_Hits stats;
                  CacheMisses := cs_Misses stats;
                  BandwidthSaved := wrap64 (cs_Hits stats * 2);
                  TotalRequests := wrap64 (cs_Hits stats + cs_Misses stats);
                  CacheSizeUsed := cs_CacheSizeUsed stats;
                  CPUUsage := ss_CPUUsage (usage (host w));
                  MemoryUsage := ss_MemoryUsage (usage (host w)) |}).
  exists data. split; [reflexivity |]. split; [reflexivity |]. split; [reflexivity |].
  destruct (Send_log decodeResponse (cmd_agent.cfg_SaasURL config) data w)
    as (a & L & F & H & O).
  destruct (telemetry.Send decodeResponse (cmd_agent.cfg_SaasURL config) data w)
    as [[[]|e] w1]; cbn [fst snd isOk] in *.
  - destruct (O eq_refl) as [-> M]. unfold attempt in L. rewrite M in L.
    unfold nginx.GetTopDomains. rewrite H.
    destruct (topDomains (host w)) as [domains|]; cbn [default].
    + match goal with
      | |- context [forEach domains ?body w1] =>
          assert (Hb : forall x w0, exists a,
                     log (snd (body x w0)) =
                       (log w0 ++ [(sitePost (cmd_agent.cfg_SaasURL config)
                                      (cmd_agent.cfg_ISPID config) x, a)])%list)
            by (intros x w0;
                unfold telemetry.SendCachedSite, try, bind, Sys.Post, Sys.request,
                  ret, sitePost;
                destruct (network w0) as [|[|? ?] ?]; cbn [fst snd]; eauto);
          destruct (forEach_log domains body _ Hb w1) as (l & Hl & L')
      end.
      exists l. split; [exact Hl |]. rewrite L', L, <- app_assoc. reflexivity.
    + exists []. unfold ret. cbn [snd length map combine]. split; [reflexivity |].
      rewrite L. reflexivity.
  - exists a. unfold ret. cbn [snd]. exact L.
Qed.

(** X24. [cmd/agent]'s [main], run without [-install], returns normally
    only when the configuration loads, the license validates, its expiry
    parses and is not before the current time, and the telemetry interval
    of the configuration makes a positive duration. *)
Theorem cmd_main_runs_only_unexpired
    (decodeValidateResponse : string -> option ValidateResponse)
    (parseRFC3339 : string -> option Z)
    (decodeResponse : string -> option Response)
    (decodeConfig : string -> option cmd_agent.Config)
    (installAgent : IO (result unit))
    (configPath : string) (ticks : nat) (w : World) :
  fst (cmd_agent.main decodeValidateResponse parseRFC3339 decodeResponse decodeConfig
         installAgent false configPath ticks w) = Exit 0 ->
  exists config licenseInfo expiry,
    fst (cmd_agent.loadConfig decodeConfig configPath w) = Ok config /\
    fst (license.Validate decodeValidateResponse (cmd_agent.cfg_SaasURL config)
           (cmd_agent.cfg_LicenseKey config) (cmd_agent.cfg_HWID config)
           (snd (cmd_agent.loadConfig decodeConfig configPath w))) = Ok licenseInfo /\
    parseRFC3339 (li_ExpiresAt licenseInfo) = Some expiry /\
    clock w <= expiry /\
    0 < wrap64 (cmd_agent.cfg_TelemetryInt config * Second).
Proof.
  unfold cmd_agent.main, bind.
  assert (Hc : clock (snd (cmd_agent.loadConfig decodeConfig configPath w)) = clock w).
  { unfold cmd_agent.loadConfig, try, bind, Sys.ReadFile, ret.
    destruct (files w !! configPath) as [data|]; [|reflexivity].
    destruct (decodeConfig data); reflexivity. }
  destruct (cmd_agent.loadConfig decodeConfig configPath w) as [[config|e] w1];
    [|discriminate].
  cbn [fst snd] in *.
  assert (Hv : clock (snd (license.Validate decodeValidateResponse
                             (cmd_agent.cfg_SaasURL config)
                             (cmd_agent.cfg_LicenseKey config)
                             (cmd_agent.cfg_HWID config) w1)) = clock w1).
  { unfold license.Validate, try, bind, Sys.Post, Sys.request, ret.
    destruct (network w1) as [|[|status body] rest]; try reflexivity.
    cbn [snd]. destruct (decodeValidateResponse body) as [r|]; [|reflexivity].
    destruct (negb (vresp_Success r)); reflexivity. }
  destruct (license.Validate _ _ _ _ w1) as [[licenseInfo|e] w2] eqn:EV; [|discriminate].
  cbn [fst snd] in *.
  unfold license.IsExpired, bind, Sys.Now, ret.
  destruct (parseRFC3339 (li_ExpiresAt licenseInfo)) as [expiry|] eqn:EP; [|discriminate].
  destruct (Z.ltb_spec expiry (clock w2)); [discriminate |].
  cbn [cmd_agent.cfg_TelemetryInt cmd_agent.setConfigISPID].
  destruct (Z.leb_spec (wrap64 (cmd_agent.cfg_TelemetryInt config * Second)) 0);
    [discriminate |].
  intros _. exists config, licenseInfo, expiry.
  split; [reflexivity |]. split; [now rewrite EV |]. split; [exact EP |].
  split; [lia | assumption].
Qed.

Lemma cmd_main_runs_only_unexpired_witness :
  exists config licenseInfo expiry,
    fst (cmd_agent.loadConfig Sample.configTable Sample.configPath
           Sample.servedInactiveValid) = Ok config /\
    fst (license.Validate Sample.validateTable (cmd_agent.cfg_SaasURL config)
           (cmd_agent.cfg_LicenseKey config) (cmd_agent.cfg_HWID config)
           (snd (cmd_agent.loadConfig Sample.configTable Sample.configPath
                   Sample.servedInactiveValid))) = Ok licenseInfo /\
    Sample.parseKnown (li_ExpiresAt licenseInfo) = Some expiry /\
    clock Sample.servedInactiveValid <= expiry /\
    0 < wrap64 (cmd_agent.cfg_TelemetryInt config * Second).
Proof.
  apply (cmd_main_runs_only_unexpired Sample.validateTable Sample.parseKnown
           Sample.noBody Sample.configTable Sample.installNothing
           Sample.configPath 0 Sample.servedInactiveValid).
  vm_compute. reflexivity.
Defined.

(** Two domains, the control plane gone after the first report: the
    snapshot, then both reports, the second unanswered. *)
Example collectAndSend_two_domains :
  log (snd (cmd_agent.collectAndSend Sample.noBody Sample.config
              Sample.reportingDomains)) =
    [ (telemetryPost "http://64.23.151.140" zeroTelemetryData, true);
      (sitePost "http://64.23.151.140" 0 ("cdn.example.com", 12), true);
      (sitePost "http://64.23.151.140" 0 ("static.example.org", 3), false) ].
Proof. vm_compute. reflexivity. Qed.

(** ** Domains *)

Section Domains.

Lemma HasPrefix_slash c s : HasPrefix (String c s) "/" = Ascii.eqb c "/".
Proof. cbn [HasPrefix]. destruct s; apply andb_true_r. Qed.

(** The first piece of a split at slashes is what precedes the first
    slash. *)
Lemma splitFrom_slash s : forall cur,
  exists rest, splitFrom "/" 0 cur s = (cur +:+ untilSlash s) :: rest.
Proof.
  induction s as [|c s IH]; intros cur.
  - exists []. cbn [splitFrom untilSlash]. now rewrite append_empty_r.
  - cbn [splitFrom untilSlash]. rewrite HasPrefix_slash.
    destruct (Ascii.eqb c "/").
    + eexists. rewrite append_empty_r. reflexivity.
    + destruct (IH (cur +:+ String c "")) as (rest & ->). exists rest.
      rewrite append_assoc. reflexivity.
Qed.

Lemma extractDomain_eq url :
  nginx.extractDomain url =
  untilSlash (TrimPrefix (TrimPrefix url "http://") "https://").
Proof.
  unfold nginx.extractDomain, Split.
  destruct (splitFrom_slash (TrimPrefix (TrimPrefix url "http://") "https://") "")
    as (rest & ->).
  reflexivity.
Qed.

Lemma untilSlash_noSlash s : noSlash (untilSlash s) = true.
Proof.
  induction s as [|c s IH]; [reflexivity |]. cbn [untilSlash].
  destruct (Ascii.eqb c "/") eqn:E; [reflexivity |].
  cbn [noSlash]. now rewrite E, IH.
Qed.

Lemma untilSlash_id s : noSlash s = true -> untilSlash s = s.
Proof.
  induction s as [|c s IH]; [reflexivity |]. cbn [noSlash untilSlash].
  destruct (Ascii.eqb c "/"); [discriminate |]. cbn [negb andb].
  intros H. now rewrite IH.
Qed.

Lemma untilSlash_append host path :
  noSlash host = true -> untilSlash (host +:+ "/" +:+ path) = host.
Proof.
  induction host as [|c host IH]; [reflexivity |]. cbn [noSlash].
  rewrite append_cons. cbn [untilSlash].
  destruct (Ascii.eqb c "/"); [discriminate |]. cbn [negb andb].
  intros H. now rewrite IH.
Qed.

(** A string without a slash has no prefix with one. *)
Lemma HasPrefix_noSlash p : forall s,
  HasPrefix s p = true -> noSlash s = true -> noSlash p = true.
Proof.
  induction p as [|a p IH]; intros s; [reflexivity |].
  destruct s as [|c s]; cbn [HasPrefix noSlash]; [discriminate |].
  intros H N. apply andb_true_iff in H as [Hc Hp]. apply andb_true_iff in N as [Nc Ns].
  apply Ascii.eqb_eq in Hc. subst a. rewrite Nc. exact (IH s Hp Ns).
Qed.

Lemma TrimPrefix_noSlash s p :
  noSlash p = false -> noSlash s = true -> TrimPrefix s p = s.
Proof.
  intros Np Ns. unfold TrimPrefix.
  destruct (HasPrefix s p) eqn:H; [|reflexivity].
  rewrite (HasPrefix_noSlash p s H Ns) in Np. discriminate.
Qed.

End Domains.

(** X25. [extractDomain] returns a string without a slash, and applying it
    again changes nothing.  Of an https URL with a host, a slash and a path
    it returns the host. *)
Theorem extractDomain_host (url : string) :
  noSlash (nginx.extractDomain url) = true /\
  nginx.extractDomain (nginx.extractDomain url) = nginx.extractDomain url /\
  (forall host path,
     noSlash host = true ->
     nginx.extractDomain ("https://" +:+ host +:+ "/" +:+ path) = host).
Proof.
  split; [| split].
  - rewrite extractDomain_eq. apply untilSlash_noSlash.
  - rewrite (extractDomain_eq (nginx.extractDomain url)).
    assert (N : noSlash (nginx.extractDomain url) = true)
      by (rewrite extractDomain_eq; apply untilSlash_noSlash).
    rewrite (TrimPrefix_noSlash (nginx.extractDomain url) "http://") by easy.
    rewrite (TrimPrefix_noSlash (nginx.extractDomain url) "https://") by easy.
    now apply untilSlash_id.
  - intros host path N. rewrite extractDomain_eq.
    change (TrimPrefix (TrimPrefix ("https://" +:+ host +:+ "/" +:+ path) "http://")
              "https://") with (host +:+ "/" +:+ path).
    now apply untilSlash_append.
Qed.

Lemma extractDomain_host_witness :
  nginx.extractDomain ("https://" +:+ "cdn.example.com" +:+ "/" +:+ "a/b.bin") =
  "cdn.example.com".
Proof.
  destruct (extractDomain_host "") as (_ & _ & H).
  apply H. reflexivity.
Defined.
